(** * takiyasha.utils: format sniffing, name classification, stream probing, XOR

    A shallow embedding of [src/takiyasha/utils.py].

    - Python [bytes] are [list byte]; Python [str] is [string].
    - A Python [dict] is an association list in insertion order
      (iteration order of a [dict] is its insertion order).
    - [Optional[T]] is [option T]; a function falling off its end returns
      [None].
    - A raised exception is an explicit error value. *)

From Stdlib Require Import List ZArith NArith Lia Bool.
From Stdlib Require Import Strings.Ascii Strings.String Strings.Byte.
Import ListNotations.

Local Open Scope string_scope.
Local Open Scope list_scope.

(** ** Python values used by the module *)

Module Py.

Definition bytes := list byte.

(** Exceptions the module raises or meets.  [ValueError] carries its
    message.  [StreamException] stands for any other exception below
    [Exception] (an [AttributeError] for a missing method, an
    [OSError], ...), [StreamBaseException] for one that is not below
    [Exception] ([KeyboardInterrupt] and the like), which
    [except Exception] lets through. *)
Inductive exc : Type :=
| ValueError (msg : string)
| StreamException
| StreamBaseException.

Definition is_Exception (e : exc) : bool :=
  match e with
  | StreamBaseException => false
  | _ => true
  end.

Inductive result (A : Type) : Type :=
| Ok (a : A)
| Raise (e : exc).

Arguments Ok {A} a.
Arguments Raise {A} e.

(** [data.startswith(header)] on byte strings. *)
Fixpoint startswith (data header : bytes) {struct header} : bool :=
  match header with
  | [] => true
  | h :: header' =>
      match data with
      | [] => false
      | d :: data' => Byte.eqb d h && startswith data' header'
      end
  end.

(** [s.removeprefix(".")]: drops one leading dot, if there is one. *)
Definition removeprefix_dot (s : string) : string :=
  match s with
  | String "."%char rest => rest
  | _ => s
  end.

(** A [dict] as the list of its items, in insertion order. *)
Definition dict (K V : Type) := list (K * V).

(** [d.get(k)] *)
Fixpoint get {K V : Type} (keq : K -> K -> bool) (d : dict K V) (k : K)
  : option V :=
  match d with
  | [] => None
  | (k', v) :: d' => if keq k' k then Some v else get keq d' k
  end.

(** [d[k] = v]: an existing key keeps its place and takes the new value,
    a new key goes to the end. *)
Fixpoint set {K V : Type} (keq : K -> K -> bool) (d : dict K V) (k : K)
  (v : V) : dict K V :=
  match d with
  | [] => [(k, v)]
  | (k', v') :: d' =>
      if keq k' k then (k', v) :: d' else (k', v') :: set keq d' k v
  end.

(** [{v: k for k, v in d.items()}] *)
Definition invert {K V : Type} (veq : V -> V -> bool) (d : dict K V)
  : dict V K :=
  fold_left (fun acc kv => set veq acc (snd kv) (fst kv)) d [].

(** Iterating over [bytes] yields ints. *)
Definition int_of_byte (b : byte) : Z := Z.of_N (Byte.to_N b).

(** One element of [bytes(iterable_of_ints)]: an int outside
    [range(256)] has no byte. *)
Definition byte_of_int (z : Z) : option byte :=
  if (z <? 0)%Z then None else Byte.of_N (Z.to_N z).

(** [bytes(ints)]: a [ValueError] at the first int outside [range(256)]. *)
Fixpoint bytes_of_ints (l : list Z) : result bytes :=
  match l with
  | [] => Ok []
  | z :: l' =>
      match byte_of_int z with
      | None => Raise (ValueError "bytes must be in range(0, 256)")
      | Some b =>
          match bytes_of_ints l' with
          | Ok bs => Ok (b :: bs)
          | Raise e => Raise e
          end
      end
  end.

(** *** Strings: [rfind] and slices with indices that are not negative *)

(** [s.rfind(c)] for a one-character [c]: the last index of [c], or -1. *)
Fixpoint rfind (s : string) (c : ascii) : Z :=
  match s with
  | EmptyString => (-1)%Z
  | String a s' =>
      let r := rfind s' c in
      if (0 <=? r)%Z then (r + 1)%Z
      else if Ascii.eqb a c then 0%Z else (-1)%Z
  end.

Fixpoint drop (n : nat) (s : string) : string :=
  match n, s with
  | O, _ => s
  | S _, EmptyString => EmptyString
  | S n', String _ s' => drop n' s'
  end.

Fixpoint take (n : nat) (s : string) : string :=
  match n, s with
  | O, _ => EmptyString
  | S _, EmptyString => EmptyString
  | S n', String a s' => String a (take n' s')
  end.

(** [s[i:]] and [s[:i]] for [0 <= i]. *)
Definition slice_from (s : string) (i : Z) : string := drop (Z.to_nat i) s.
Definition slice_to (s : string) (i : Z) : string := take (Z.to_nat i) s.

(** [s[i:i+1]] for [0 <= i]: one character, or nothing past the end. *)
Definition slice1 (s : string) (i : Z) : string := take 1 (slice_from s i).

End Py.

(** ** The header registries *)

Definition AUDIO_FILE_HEADER_FORMAT_MAP : Py.dict Py.bytes string :=
  [ ([x66; x4c; x61; x43], "flac")                       (* b'fLaC' *)
  ; ([x49; x44; x33], "mp3")                             (* b'ID3'  *)
  ; ([x4f; x67; x67; x53], "ogg")                        (* b'OggS' *)
  ; ([x66; x74; x79; x70], "m4a")                        (* b'ftyp' *)
  ; ([x30; x26; xb2; x75; x8e; x66; xcf; x11;
      xa6; xd9; x00; xaa; x00; x62; xce; x6c], "wma")
  ; ([x52; x49; x46; x46], "wav")                        (* b'RIFF' *)
  ; ([xff; xf1], "aac")
  ; ([x46; x52; x4d; x38], "dff")                        (* b'FRM8' *)
  ; ([x4d; x41; x43; x20], "ape")                        (* b'MAC ' *)
  ].

Definition AUDIO_FILE_FORMAT_HEADER_MAP : Py.dict string Py.bytes :=
  Py.invert String.eqb AUDIO_FILE_HEADER_FORMAT_MAP.

Definition IMAGE_FILE_HEADER_MIME_MAP : Py.dict Py.bytes string :=
  [ ([x89; x50; x4e; x47; x0d; x0a; x1a; x0a], "image/png")
  ; ([xff; xd8; xff], "image/jpeg")
  ; ([x42; x4d], "image/bmp")
  ].

Definition IMAGE_FILE_MIME_HEADER_MAP : Py.dict string Py.bytes :=
  Py.invert String.eqb IMAGE_FILE_HEADER_MIME_MAP.

(** ** The sniffers and the reverse lookups *)

(** The loop [for header, fmt in m.items(): if data.startswith(header):
    return fmt], shared by both sniffers; no match falls off the end. *)
Fixpoint first_matching_header (m : Py.dict Py.bytes string) (data : Py.bytes)
  : option string :=
  match m with
  | [] => None
  | (header, fmt) :: m' =>
      if Py.startswith data header then Some fmt
      else first_matching_header m' data
  end.

Definition get_audio_format (data : Py.bytes) : option string :=
  first_matching_header AUDIO_FILE_HEADER_FORMAT_MAP data.

Definition get_possible_audio_header (fmt : string) : option Py.bytes :=
  let fmt := Py.removeprefix_dot fmt in
  Py.get String.eqb AUDIO_FILE_FORMAT_HEADER_MAP fmt.

Definition get_image_mime (data : Py.bytes) : option string :=
  first_matching_header IMAGE_FILE_HEADER_MIME_MAP data.

Definition get_possible_image_header (fmt : string) : option Py.bytes :=
  let fmt := Py.removeprefix_dot fmt in
  Py.get String.eqb IMAGE_FILE_MIME_HEADER_MAP fmt.

(** ** Byte-wise XOR *)

Definition xor_bytestrings (term1 term2 : Py.bytes) : Py.result Py.bytes :=
  if negb (Nat.eqb (List.length term1) (List.length term2)) then
    Py.Raise (Py.ValueError "Only byte strings of equal length can be xored")
  else
    Py.bytes_of_ints
      (map (fun '(b1, b2) => Z.lxor (Py.int_of_byte b1) (Py.int_of_byte b2))
         (combine term1 term2)).

(** ** File extension: [os.path.splitext] of [posixpath] *)

Module posixpath.

Definition sep : ascii := "/"%char.
Definition extsep : ascii := "."%char.

(** The loop of [genericpath._splitext] that skips the leading dots of
    the last component: [filenameIndex] runs up to [dotIndex]; [fuel] is
    the number of iterations left, [dotIndex - filenameIndex]. *)
Fixpoint skip_leading_dots (p : string) (dotIndex filenameIndex : Z)
  (fuel : nat) : string * string :=
  match fuel with
  | O => (p, Py.slice_to p 0)
  | S fuel' =>
      if negb (String.eqb (Py.slice1 p filenameIndex) (String extsep ""))
      then (Py.slice_to p dotIndex, Py.slice_from p dotIndex)
      else skip_leading_dots p dotIndex (filenameIndex + 1) fuel'
  end.

(** [genericpath._splitext(p, sep, None, extsep)] *)
Definition splitext (p : string) : string * string :=
  let sepIndex := Py.rfind p sep in
  let dotIndex := Py.rfind p extsep in
  if (dotIndex >? sepIndex)%Z then
    let filenameIndex := (sepIndex + 1)%Z in
    skip_leading_dots p dotIndex filenameIndex
      (Z.to_nat (dotIndex - filenameIndex))
  else (p, Py.slice_to p 0).

End posixpath.

Definition get_file_ext (name : string) : string :=
  snd (posixpath.splitext name).

(** ** Name classification: [fnmatch.fnmatch] on a POSIX system *)

Module fnmatch.

(** What [fnmatch.translate] turns a pattern into: [*], [?], a bracket
    expression with its negation flag and its ranges (a single character
    [c] is the range [c]-[c]), or a character standing for itself. *)
Inductive item : Type :=
| Star
| AnyChar
| Class (negated : bool) (ranges : list (ascii * ascii))
| Lit (c : ascii).

(** Splits at the first right bracket. *)
Fixpoint find_close (s : string) : option (string * string) :=
  match s with
  | EmptyString => None
  | String c s' =>
      if Ascii.eqb c "]" then Some (EmptyString, s')
      else
        match find_close s' with
        | Some (body, rest) => Some (String c body, rest)
        | None => None
        end
  end.

(** The text after a left bracket: an optional [!], then a right bracket
    taken literally when it comes first, up to the closing bracket.
    [None] when the bracket is never closed. *)
Definition split_class (s : string) : option (bool * string * string) :=
  let (negated, s1) :=
    match s with
    | String "!"%char s' => (true, s')
    | _ => (false, s)
    end in
  match s1 with
  | String "]"%char s2 =>
      match find_close s2 with
      | Some (body, rest) => Some (negated, String "]" body, rest)
      | None => None
      end
  | _ =>
      match find_close s1 with
      | Some (body, rest) => Some (negated, body, rest)
      | None => None
      end
  end.

(** The members of a bracket expression: [lo-hi] is a range, any other
    character a member. *)
Fixpoint ranges_of (body : string) : list (ascii * ascii) :=
  match body with
  | EmptyString => []
  | String lo (String "-"%char (String hi rest)) => (lo, hi) :: ranges_of rest
  | String c rest => (c, c) :: ranges_of rest
  end.

(** [fuel] bounds the number of items; the length of the pattern is
    enough, since every item takes at least one character. *)
Fixpoint translate_aux (fuel : nat) (pat : string) : list item :=
  match fuel with
  | O => []
  | S fuel' =>
      match pat with
      | EmptyString => []
      | String c rest =>
          if Ascii.eqb c "*" then Star :: translate_aux fuel' rest
          else if Ascii.eqb c "?" then AnyChar :: translate_aux fuel' rest
          else if Ascii.eqb c "[" then
            match split_class rest with
            | None => Lit c :: translate_aux fuel' rest
            | Some (negated, body, rest') =>
                Class negated (ranges_of body) :: translate_aux fuel' rest'
            end
          else Lit c :: translate_aux fuel' rest
      end
  end.

Definition translate (pat : string) : list item :=
  translate_aux (String.length pat) pat.

Definition in_range (c : ascii) (r : ascii * ascii) : bool :=
  (N.leb (N_of_ascii (fst r)) (N_of_ascii c)
   && N.leb (N_of_ascii c) (N_of_ascii (snd r)))%bool.

(** One item other than [Star] against one character. *)
Definition item_matches (i : item) (c : ascii) : bool :=
  match i with
  | Star => true
  | AnyChar => true
  | Class negated ranges => xorb negated (existsb (in_range c) ranges)
  | Lit c' => Ascii.eqb c c'
  end.

(** The whole name against the whole pattern. *)
Fixpoint matches (items : list item) (name : string) : bool :=
  match items with
  | [] =>
      match name with
      | EmptyString => true
      | String _ _ => false
      end
  | Star :: items' =>
      (fix star (s : string) : bool :=
         (matches items' s
          || match s with
             | EmptyString => false
             | String _ s' => star s'
             end)%bool) name
  | i :: items' =>
      match name with
      | EmptyString => false
      | String c name' => (item_matches i c && matches items' name')%bool
      end
  end.

(** [fnmatch.fnmatchcase(name, pat)] *)
Definition fnmatchcase (name pat : string) : bool :=
  matches (translate pat) name.

(** [fnmatch.fnmatch(name, pat)]; [os.path.normcase] of [posixpath]
    returns its argument. *)
Definition fnmatch (name pat : string) : bool := fnmatchcase name pat.

End fnmatch.

Definition SUPPORTED_FORMATS_PATTERNS : Py.dict string (list string) :=
  [ ("ncm", ["*.ncm"])
  ; ("qmc", ["*.qmc[023468]"; "*.qmcflac"; "*.qmcogg";
             "*.tkm";
             "*.mflac"; "*.mflac[0]"; "*.mgg"; "*.mgg[01l]";
             "*.bkcmp3"; "*.bkcm4a"; "*.bkcflac"; "*.bkcwav"; "*.bkcape";
             "*.bkcogg"; "*.bkcwma"])
  ].

(** The inner loop [for pattern in patterns: if fnmatch(name, pattern):
    return enctype]: whether it returns. *)
Fixpoint any_pattern_matches (name : string) (patterns : list string) : bool :=
  match patterns with
  | [] => false
  | pattern :: patterns' =>
      if fnmatch.fnmatch name pattern then true
      else any_pattern_matches name patterns'
  end.

(** The outer loop over the schemes, in the order of the table. *)
Fixpoint first_matching_scheme (m : Py.dict string (list string))
  (name : string) : option string :=
  match m with
  | [] => None
  | (enctype, patterns) :: m' =>
      if any_pattern_matches name patterns then Some enctype
      else first_matching_scheme m' name
  end.

Definition get_encryption_format (name : string) : option string :=
  first_matching_scheme SUPPORTED_FORMATS_PATTERNS name.

(** ** File objects and the capability probes *)

Module Stream.

(** What a method of a file object may return. *)
Inductive value : Type :=
| VBytes (b : Py.bytes)
| VStr (s : string)
| VInt (z : Z)
| VNone.

(** [isinstance(data, bytes)] *)
Definition is_bytes (v : value) : bool :=
  match v with
  | VBytes _ => true
  | _ => false
  end.

(** A call the validator makes on the file object, recorded when the call
    is attempted, also when the method turns out to be missing. *)
Inductive event : Type :=
| CallRead (size : Z)
| CallSeek (offset whence : Z)
| CallWrite (data : Py.bytes).

(** A method takes the state of the stream to what it returns or raises
    and to the state it leaves. *)
Definition method (S : Type) : Type := S -> Py.result value * S.

(** A file object over streams with states in [S]: how it prints in an
    f-string, and its three methods, each absent ([hasattr] false) or
    present. *)
Record fileobj (S : Type) : Type := {
  repr : string;
  read : option (Z -> method S);
  seek : option (Z -> Z -> method S);
  write : option (Py.bytes -> method S)
}.

Arguments repr {S} f.
Arguments read {S} f.
Arguments seek {S} f.
Arguments write {S} f.

(** A computation over the stream: its result, the state it leaves, and
    the calls it made, in order. *)
Record run (S A : Type) : Type := {
  res : Py.result A;
  final : S;
  trace : list event
}.

Arguments res {S A} r.
Arguments final {S A} r.
Arguments trace {S A} r.

Definition io (S A : Type) : Type := S -> run S A.

Definition ret {S A : Type} (a : A) : io S A :=
  fun st => {| res := Py.Ok a; final := st; trace := [] |}.

Definition raise {S A : Type} (e : Py.exc) : io S A :=
  fun st => {| res := Py.Raise e; final := st; trace := [] |}.

Definition bind {S A B : Type} (c : io S A) (k : A -> io S B) : io S B :=
  fun st =>
    let r := c st in
    match res r with
    | Py.Raise e => {| res := Py.Raise e; final := final r; trace := trace r |}
    | Py.Ok a =>
        let r' := k a (final r) in
        {| res := res r'; final := final r'; trace := trace r ++ trace r' |}
    end.

(** [try: c  except Exception: handler] *)
Definition try_except {S A : Type} (c : io S A) (handler : io S A) : io S A :=
  fun st =>
    let r := c st in
    match res r with
    | Py.Ok _ => r
    | Py.Raise e =>
        if Py.is_Exception e then
          let r' := handler (final r) in
          {| res := res r'; final := final r'; trace := trace r ++ trace r' |}
        else r
    end.

(** Calling a method: a missing one raises [AttributeError]. *)
Definition call {S : Type} (ev : event) (m : option (method S)) : io S value :=
  fun st =>
    match m with
    | None => {| res := Py.Raise Py.StreamException; final := st; trace := [ev] |}
    | Some f =>
        let (r, st') := f st in
        {| res := r; final := st'; trace := [ev] |}
    end.

Definition hasattr {A : Type} (attribute : option A) : bool :=
  match attribute with
  | Some _ => true
  | None => false
  end.

End Stream.

Declare Scope io_scope.
Delimit Scope io_scope with io.
Notation "x <- c ;; k" := (Stream.bind c (fun x => k))
  (at level 61, c at next level, right associativity) : io_scope.
Notation "c ;; k" := (Stream.bind c (fun _ => k))
  (at level 61, right associativity) : io_scope.
Notation "'try' c 'except_Exception' h" := (Stream.try_except c h)
  (at level 60, c at next level, h at next level) : io_scope.

Definition SEEK_END : Z := 2.

Section Validator.
Context {S : Type} (fileobj : Stream.fileobj S).

Local Open Scope io_scope.

(** The block under [if readable:]. *)
Definition check_readable : Stream.io S unit :=
  data <- try
            Stream.call (Stream.CallRead 0)
              (option_map (fun m => m 0%Z) (Stream.read fileobj))
          except_Exception
            (if negb (Stream.hasattr (Stream.read fileobj)) then
               Stream.raise
                 (Py.ValueError (Stream.repr fileobj ++ " not a valid file object")%string)
             else
               Stream.raise
                 (Py.ValueError ("cannot read from file object " ++ Stream.repr fileobj)%string)) ;;
  if negb (Stream.is_bytes data) then
    Stream.raise
      (Py.ValueError
         ("file object " ++ Stream.repr fileobj ++ " not opened in binary mode")%string)
  else Stream.ret tt.

(** The block under [if seekable:]. *)
Definition check_seekable : Stream.io S unit :=
  try
    (Stream.call (Stream.CallSeek 0 SEEK_END)
       (option_map (fun m => m 0%Z SEEK_END) (Stream.seek fileobj)) ;;
     Stream.ret tt)
  except_Exception
    (if negb (Stream.hasattr (Stream.seek fileobj)) then
       Stream.raise
         (Py.ValueError (Stream.repr fileobj ++ " not a valid file object")%string)
     else
       Stream.raise
         (Py.ValueError ("cannot seek in file object " ++ Stream.repr fileobj)%string)).

(** The block under [if writable:]. *)
Definition check_writable : Stream.io S unit :=
  try
    (Stream.call (Stream.CallWrite [])
       (option_map (fun m => m []) (Stream.write fileobj)) ;;
     Stream.ret tt)
  except_Exception
    (if negb (Stream.hasattr (Stream.write fileobj)) then
       Stream.raise
         (Py.ValueError (Stream.repr fileobj ++ " not a valid file object")%string)
     else
       Stream.raise
         (Py.ValueError ("cannot write to file object " ++ Stream.repr fileobj)%string)).

Definition raise_while_not_fileobj (readable seekable writable : bool)
  : Stream.io S unit :=
  (if readable then check_readable else Stream.ret tt) ;;
  (if seekable then check_seekable else Stream.ret tt) ;;
  (if writable then check_writable else Stream.ret tt).

End Validator.

(** The probes a call with the given flags can make, in program order. *)
Definition enabled_probes (readable seekable writable : bool)
  : list Stream.event :=
  (if readable then [Stream.CallRead 0] else [])
  ++ (if seekable then [Stream.CallSeek 0 SEEK_END] else [])
  ++ (if writable then [Stream.CallWrite []] else []).

(** Whether [needle] occurs in [hay]. *)
Fixpoint mentions (needle hay : string) : bool :=
  (String.prefix needle hay
   || match hay with
      | EmptyString => false
      | String _ hay' => mentions needle hay'
      end)%bool.

(** *** Streams to run the validator on *)

(** An in-memory binary stream after [io.BytesIO]: a buffer, a cursor and
    the closed flag. *)
Module BytesIO.

Record state : Type := {
  buffer : Py.bytes;
  pos : Z;
  closed : bool
}.

Definition closed_file : Py.exc :=
  Py.ValueError "I/O operation on closed file.".

Definition size (st : state) : Z := Z.of_nat (List.length (buffer st)).

Definition read (n : Z) : Stream.method state :=
  fun st =>
    if closed st then (Py.Raise closed_file, st)
    else
      let avail := Z.max 0 (size st - pos st) in
      let k := if (n <? 0)%Z then avail else Z.min n avail in
      (Py.Ok (Stream.VBytes
                (firstn (Z.to_nat k) (skipn (Z.to_nat (pos st)) (buffer st)))),
       {| buffer := buffer st; pos := pos st + k; closed := false |}).

Definition seek (offset whence : Z) : Stream.method state :=
  fun st =>
    if closed st then (Py.Raise closed_file, st)
    else if (whence =? 0)%Z then
      if (offset <? 0)%Z then (Py.Raise (Py.ValueError "negative seek value"), st)
      else (Py.Ok (Stream.VInt offset),
            {| buffer := buffer st; pos := offset; closed := false |})
    else if (whence =? 1)%Z then
      let p := Z.max 0 (pos st + offset) in
      (Py.Ok (Stream.VInt p), {| buffer := buffer st; pos := p; closed := false |})
    else if (whence =? 2)%Z then
      let p := Z.max 0 (size st + offset) in
      (Py.Ok (Stream.VInt p), {| buffer := buffer st; pos := p; closed := false |})
    else (Py.Raise (Py.ValueError "unsupported whence value"), st).

Definition write (data : Py.bytes) : Stream.method state :=
  fun st =>
    if closed st then (Py.Raise closed_file, st)
    else
      match data with
      | [] => (Py.Ok (Stream.VInt 0), st)
      | _ :: _ =>
          let p := Z.to_nat (pos st) in
          let padded := buffer st ++ repeat x00 (p - List.length (buffer st)) in
          (Py.Ok (Stream.VInt (Z.of_nat (List.length data))),
           {| buffer := firstn p padded ++ data
                        ++ skipn (p + List.length data) (buffer st);
              pos := pos st + Z.of_nat (List.length data);
              closed := false |})
      end.

Definition fileobj : Stream.fileobj state := {|
  Stream.repr := "<_io.BytesIO object>";
  Stream.read := Some read;
  Stream.seek := Some seek;
  Stream.write := Some write
|}.

(** Everything of a state but its cursor. *)
Definition content (st : state) : Py.bytes * bool := (buffer st, closed st).

End BytesIO.

(** A readable object with no [seek] and no [write] attribute; it has no
    state of its own. *)
Definition reader_without_seek : Stream.fileobj unit := {|
  Stream.repr := "<Reader object>";
  Stream.read := Some (fun _ st => (Py.Ok (Stream.VBytes []), st));
  Stream.seek := None;
  Stream.write := None
|}.

(** A readable stream whose [seek] raises ([io.UnsupportedOperation], as
    a pipe does) and whose [write] would succeed. *)
Definition pipe : Stream.fileobj unit := {|
  Stream.repr := "<Pipe object>";
  Stream.read := Some (fun _ st => (Py.Ok (Stream.VBytes []), st));
  Stream.seek := Some (fun _ _ st => (Py.Raise Py.StreamException, st));
  Stream.write := Some (fun _ st => (Py.Ok (Stream.VInt 0), st))
|}.

(** ** The reading of [file_extension] by its words alone *)

(** The suffix of [name] from its last dot, the dot included; nothing when
    [name] has no dot. *)
Definition last_dot_suffix (name : string) : string :=
  let i := Py.rfind name "." in
  if (i <? 0)%Z then EmptyString else Py.slice_from name i.

(** The last component of a path: what follows its last separator. *)
Definition basename (name : string) : string :=
  Py.slice_from name (Py.rfind name "/" + 1).

Fixpoint lstrip_dots (s : string) : string :=
  match s with
  | String "."%char s' => lstrip_dots s'
  | _ => s
  end.

(** ** Names by their endings *)

(** Whether [name] ends with [suffix]. *)
Fixpoint ends_with (name suffix : string) : bool :=
  (String.eqb name suffix
   || match name with
      | EmptyString => false
      | String _ name' => ends_with name' suffix
      end)%bool.

(** The endings the patterns of the scheme ["qmc"] stand for, a bracket
    expression written out, in the order of the patterns. *)
Definition qmc_suffixes : list string :=
  [ ".qmc0"; ".qmc2"; ".qmc3"; ".qmc4"; ".qmc6"; ".qmc8";
    ".qmcflac"; ".qmcogg";
    ".tkm";
    ".mflac"; ".mflac0"; ".mgg"; ".mgg0"; ".mgg1"; ".mggl";
    ".bkcmp3"; ".bkcm4a"; ".bkcflac"; ".bkcwav"; ".bkcape"; ".bkcogg";
    ".bkcwma" ].

(** ** What the probes ask of a stream *)

Section Passing.
Context {S : Type} (fileobj : Stream.fileobj S).

(** The read of zero bytes returns [bytes]. *)
Definition read_passes (st st' : S) : Prop :=
  exists rd b,
    Stream.read fileobj = Some rd
    /\ rd 0%Z st = (Py.Ok (Stream.VBytes b), st').

(** The seek to the end returns. *)
Definition seek_passes (st st' : S) : Prop :=
  exists sk v,
    Stream.seek fileobj = Some sk
    /\ sk 0%Z SEEK_END st = (Py.Ok v, st').

(** The write of no bytes returns. *)
Definition write_passes (st st' : S) : Prop :=
  exists wr v,
    Stream.write fileobj = Some wr
    /\ wr [] st = (Py.Ok v, st').

(** A check that is off leaves the stream alone. *)
Definition if_enabled (enabled : bool) (passes : S -> S -> Prop) (st st' : S)
  : Prop :=
  if enabled then passes st st' else st' = st.

(** The messages of the errors the validator raises itself. *)
Definition validator_messages : list string :=
  [ (Stream.repr fileobj ++ " not a valid file object")%string;
    ("cannot read from file object " ++ Stream.repr fileobj)%string;
    ("file object " ++ Stream.repr fileobj ++ " not opened in binary mode")%string;
    ("cannot seek in file object " ++ Stream.repr fileobj)%string;
    ("cannot write to file object " ++ Stream.repr fileobj)%string ].

End Passing.

(** A stream opened in text mode: its [read] returns [str]. *)
Definition text_stream : Stream.fileobj unit := {|
  Stream.repr := "<_io.TextIOWrapper name='lyrics.txt'>";
  Stream.read := Some (fun _ st => (Py.Ok (Stream.VStr ""), st));
  Stream.seek := Some (fun _ _ st => (Py.Ok (Stream.VInt 0), st));
  Stream.write := None
|}.

(** A stream whose [read] is interrupted from the keyboard. *)
Definition interrupted_stream : Stream.fileobj unit := {|
  Stream.repr := "<Slow object>";
  Stream.read := Some (fun _ st => (Py.Raise Py.StreamBaseException, st));
  Stream.seek := None;
  Stream.write := None
|}.

(** * Properties *)

(** ** Prefix tests and first match *)

Lemma startswith_app (header suffix : Py.bytes) :
  Py.startswith (header ++ suffix) header = true.
Proof.
  induction header as [|h header IH]; simpl; [reflexivity|].
  rewrite IH, andb_true_r. now apply Byte.byte_dec_lb.
Qed.

Lemma startswith_prefix (data header : Py.bytes) :
  Py.startswith data header = true ->
  exists suffix, data = header ++ suffix.
Proof.
  revert data; induction header as [|h header IH]; intros data H.
  - now exists data.
  - destruct data as [|d data]; simpl in H; [discriminate|].
    apply andb_true_iff in H as [Hd Ht].
    apply Byte.byte_dec_bl in Hd; subst d.
    destruct (IH _ Ht) as [suffix ->]. now exists suffix.
Qed.

Lemma startswith_length (data header : Py.bytes) :
  Py.startswith data header = true -> List.length header <= List.length data.
Proof.
  intros H. destruct (startswith_prefix _ _ H) as [suffix ->].
  rewrite length_app. lia.
Qed.

Lemma first_matching_header_None m data :
  (forall header label, In (header, label) m ->
                        Py.startswith data header = false) ->
  first_matching_header m data = None.
Proof.
  induction m as [|[h l] m IH]; intros H; simpl; [reflexivity|].
  rewrite (H h l) by now left.
  apply IH. intros h' l' Hin. apply (H h' l'). now right.
Qed.

Lemma first_matching_header_Some m data label :
  first_matching_header m data = Some label ->
  exists header, In (header, label) m /\ Py.startswith data header = true.
Proof.
  induction m as [|[h l] m IH]; simpl; [discriminate|].
  destruct (Py.startswith data h) eqn:E.
  - intros [= <-]. exists h. split; [now left|assumption].
  - intros H. destruct (IH H) as [h' [Hin Hs]]. exists h'. split; [now right|assumption].
Qed.

(** C1.  For every (header, label) entry of the audio registry and of the
    image registry and every byte-string suffix, sniffing the header followed
    by the suffix returns the entry's label: [get_audio_format] for an audio
    entry, [get_image_mime] for an image entry. *)
Theorem identify_format_registered (header : Py.bytes) (label : string)
  (suffix : Py.bytes) :
  (In (header, label) AUDIO_FILE_HEADER_FORMAT_MAP ->
   get_audio_format (header ++ suffix) = Some label)
  /\ (In (header, label) IMAGE_FILE_HEADER_MIME_MAP ->
      get_image_mime (header ++ suffix) = Some label).
Proof.
  split; intros H; simpl in H;
    repeat (destruct H as [H|H]; [injection H as <- <-; reflexivity|]);
    contradiction.
Qed.

Lemma identify_format_registered_witness :
  get_audio_format ([x66; x4c; x61; x43] ++ [x00; x00; x00; x22]) = Some "flac"
  /\ get_image_mime ([xff; xd8; xff] ++ [xe0]) = Some "image/jpeg".
Proof.
  split.
  - apply (identify_format_registered [x66; x4c; x61; x43] "flac").
    simpl. left. reflexivity.
  - apply (identify_format_registered [xff; xd8; xff] "image/jpeg").
    simpl. right. left. reflexivity.
Defined.

(** C2.  For every label of the controlled vocabulary (the nine audio
    labels, the three image MIME labels) the reverse lookup returns the
    header registered for that label, and it returns the same header when the
    label comes with one leading dot. *)
Theorem header_for_format_roundtrip (label : string) :
  (In label ["flac"; "mp3"; "ogg"; "m4a"; "wma"; "wav"; "aac"; "dff"; "ape"] ->
   exists header,
     In (header, label) AUDIO_FILE_HEADER_FORMAT_MAP
     /\ get_possible_audio_header label = Some header
     /\ get_possible_audio_header ("." ++ label) = Some header)
  /\ (In label ["image/png"; "image/jpeg"; "image/bmp"] ->
      exists header,
        In (header, label) IMAGE_FILE_HEADER_MIME_MAP
        /\ get_possible_image_header label = Some header
        /\ get_possible_image_header ("." ++ label) = Some header).
Proof.
  split; intros H; simpl in H;
    repeat (destruct H as [<-|H];
            [eexists; split; [|split; reflexivity]; simpl; tauto|]);
    contradiction.
Qed.

Lemma header_for_format_roundtrip_witness :
  exists header,
    In (header, "wma") AUDIO_FILE_HEADER_FORMAT_MAP
    /\ get_possible_audio_header "wma" = Some header
    /\ get_possible_audio_header ".wma" = Some header.
Proof.
  apply (header_for_format_roundtrip "wma"). simpl. tauto.
Defined.

(** C6.  The sniffers return [None] whenever no registered header is a
    prefix of the input; so they do for a buffer shorter than every
    registered header, and for the empty byte string.  The outcome is the
    value [None] of the option type: the sniffers raise nothing. *)
Theorem identify_format_no_match (data : Py.bytes) :
  ((forall header label, In (header, label) AUDIO_FILE_HEADER_FORMAT_MAP ->
                         Py.startswith data header = false) ->
   get_audio_format data = None)
  /\ ((forall header label, In (header, label) IMAGE_FILE_HEADER_MIME_MAP ->
                            Py.startswith data header = false) ->
      get_image_mime data = None)
  /\ ((forall header label, In (header, label) AUDIO_FILE_HEADER_FORMAT_MAP ->
                            List.length data < List.length header) ->
      get_audio_format data = None)
  /\ ((forall header label, In (header, label) IMAGE_FILE_HEADER_MIME_MAP ->
                            List.length data < List.length header) ->
      get_image_mime data = None)
  /\ get_audio_format [] = None
  /\ get_image_mime [] = None.
Proof.
  assert (short : forall m,
             (forall header label, In (header, label) m ->
                                   List.length data < List.length header) ->
             first_matching_header m data = None).
  { intros m H. apply first_matching_header_None. intros h l Hin.
    destruct (Py.startswith data h) eqn:E; [|reflexivity].
    apply startswith_length in E. specialize (H h l Hin). lia. }
  split; [apply first_matching_header_None|].
  split; [apply first_matching_header_None|].
  split; [apply short|].
  split; [apply short|].
  split; reflexivity.
Qed.

Lemma identify_format_no_match_witness :
  get_audio_format [x66] = None /\ get_image_mime [x42] = None.
Proof.
  destruct (identify_format_no_match [x66]) as (_ & _ & Haudio & _).
  destruct (identify_format_no_match [x42]) as (_ & _ & _ & Himage & _).
  split.
  - apply Haudio. intros header label H. simpl in H.
    repeat (destruct H as [H|H]; [injection H as <- <-; simpl; lia|]).
    contradiction.
  - apply Himage. intros header label H. simpl in H.
    repeat (destruct H as [H|H]; [injection H as <- <-; simpl; lia|]).
    contradiction.
Defined.

(** C9.  Whenever a sniffer returns a label for some data, the reverse
    lookup of that label returns a header, and that header is a prefix of the
    data. *)
Theorem sniffed_format_has_its_header (data : Py.bytes) (label : string) :
  (get_audio_format data = Some label ->
   exists header suffix,
     get_possible_audio_header label = Some header
     /\ data = header ++ suffix)
  /\ (get_image_mime data = Some label ->
      exists header suffix,
        get_possible_image_header label = Some header
        /\ data = header ++ suffix).
Proof.
  split; intros H; apply first_matching_header_Some in H as [h [Hin Hs]];
    apply startswith_prefix in Hs as [suffix ->]; exists h, suffix;
    (split; [|reflexivity]); simpl in Hin;
    repeat (destruct Hin as [Hin|Hin]; [injection Hin as <- <-; reflexivity|]);
    contradiction.
Qed.

Lemma sniffed_format_has_its_header_witness :
  exists header suffix,
    get_possible_audio_header "mp3" = Some header
    /\ [x49; x44; x33; x04; x00] = header ++ suffix.
Proof.
  apply (sniffed_format_has_its_header [x49; x44; x33; x04; x00] "mp3").
  reflexivity.
Defined.

(** ** Strings *)

Lemma string_app_assoc (a b c : string) :
  ((a ++ b) ++ c = a ++ (b ++ c))%string.
Proof. induction a as [|x a IH]; simpl; [reflexivity|now rewrite IH]. Qed.

Lemma string_length_app (a b : string) :
  String.length (a ++ b) = String.length a + String.length b.
Proof. induction a as [|x a IH]; simpl; [reflexivity|now rewrite IH]. Qed.

Lemma take_drop (n : nat) (s : string) : (Py.take n s ++ Py.drop n s)%string = s.
Proof.
  revert s; induction n as [|n IH]; intros [|x s]; simpl; try reflexivity.
  now rewrite IH.
Qed.

Lemma length_take (n : nat) (s : string) :
  n <= String.length s -> String.length (Py.take n s) = n.
Proof.
  revert s; induction n as [|n IH]; intros [|x s] H; simpl in *;
    try reflexivity; try lia.
  rewrite IH; lia.
Qed.

Lemma drop_app_length (a b : string) (k : nat) :
  Py.drop (String.length a + k) (a ++ b) = Py.drop k b.
Proof. induction a as [|x a IH]; simpl; [reflexivity|exact IH]. Qed.

Lemma rfind_bounds (s : string) (c : ascii) :
  (-1 <= Py.rfind s c < Z.of_nat (String.length s))%Z.
Proof.
  induction s as [|x s IH]; cbn [Py.rfind String.length]; [lia|].
  destruct (Z.leb_spec 0 (Py.rfind s c)); [lia|].
  destruct (Ascii.eqb x c); lia.
Qed.

Lemma rfind_app (a b : string) (c : ascii) :
  Py.rfind (a ++ b) c =
  if (0 <=? Py.rfind b c)%Z
  then (Z.of_nat (String.length a) + Py.rfind b c)%Z
  else Py.rfind a c.
Proof.
  induction a as [|x a IH]; cbn [Py.rfind String.length append].
  - pose proof (rfind_bounds b c).
    destruct (Z.leb_spec 0 (Py.rfind b c)); lia.
  - rewrite IH. pose proof (rfind_bounds a c).
    destruct (Z.leb_spec 0 (Py.rfind b c)).
    + destruct (Z.leb_spec 0 (Z.of_nat (String.length a) + Py.rfind b c)); lia.
    + reflexivity.
Qed.

Lemma lstrip_dots_no_dot (s : string) :
  (Py.rfind s "." < 0)%Z -> lstrip_dots s = s.
Proof.
  destruct s as [|x s]; [reflexivity|]. simpl.
  pose proof (rfind_bounds s ".").
  destruct (Z.leb_spec 0 (Py.rfind s ".")); [lia|].
  destruct (Ascii.eqb_spec x "."); [lia|]. intros _.
  destruct x as [[] [] [] [] [] [] [] []]; try reflexivity. contradiction.
Qed.

Lemma lstrip_dots_not_dot (x : ascii) (s : string) :
  x <> "."%char -> lstrip_dots (String x s) = String x s.
Proof.
  intros H. destruct x as [[] [] [] [] [] [] [] []]; try reflexivity.
  contradiction.
Qed.

Lemma slice1_app_length (pre : string) (x : ascii) (s : string) :
  Py.slice1 (pre ++ String x s) (Z.of_nat (String.length pre)) = String x "".
Proof.
  unfold Py.slice1, Py.slice_from. rewrite Nat2Z.id.
  rewrite <- (Nat.add_0_r (String.length pre)), drop_app_length. reflexivity.
Qed.

(** ** The extension of a file name *)

Lemma skip_leading_dots_spec (base pre : string) (d : Z) :
  Py.rfind base "." = d -> (0 <= d)%Z ->
  snd (posixpath.skip_leading_dots (pre ++ base)
         (Z.of_nat (String.length pre) + d) (Z.of_nat (String.length pre))
         (Z.to_nat d)) =
  last_dot_suffix (lstrip_dots base).
Proof.
  revert pre d; induction base as [|x s IH]; intros pre d Hd Hnn.
  - simpl in Hd. lia.
  - simpl in Hd. pose proof (rfind_bounds s ".") as Hb.
    destruct (Z.leb_spec 0 (Py.rfind s ".")) as [Hr|Hr].
    + (* a later dot *)
      replace (Z.to_nat d) with (Datatypes.S (Z.to_nat (Py.rfind s "."))) by lia.
      cbn [posixpath.skip_leading_dots].
      rewrite slice1_app_length. unfold posixpath.extsep.
      destruct (String.eqb_spec (String x "") (String "."%char "")) as [E|E];
        cbn [negb].
      * injection E as ->.
        change (pre ++ String "."%char s)%string
          with (pre ++ (String "."%char "" ++ s))%string.
        rewrite <- string_app_assoc.
        specialize (IH (pre ++ String "."%char "")%string (Py.rfind s ".") eq_refl Hr).
        rewrite string_length_app in IH. cbn [String.length] in IH.
        replace (Z.of_nat (String.length pre) + d)%Z
          with (Z.of_nat (String.length pre + 1) + Py.rfind s ".")%Z by lia.
        replace (Z.of_nat (String.length pre) + 1)%Z
          with (Z.of_nat (String.length pre + 1)) by lia.
        rewrite IH. reflexivity.
      * cbn [snd]. rewrite lstrip_dots_not_dot by congruence.
        unfold last_dot_suffix. cbn [Py.rfind].
        destruct (Z.leb_spec 0 (Py.rfind s ".")); [|lia].
        destruct (Z.ltb_spec (Py.rfind s "." + 1) 0); [lia|].
        unfold Py.slice_from. rewrite Hd.
        replace (Z.to_nat (Z.of_nat (String.length pre) + d))
          with (String.length pre + Z.to_nat d) by lia.
        apply drop_app_length.
    + (* the dot comes first and is the only one *)
      destruct (Ascii.eqb_spec x ".") as [->|E]; [|lia].
      subst d. cbn [Z.to_nat posixpath.skip_leading_dots snd].
      cbn [lstrip_dots]. rewrite lstrip_dots_no_dot by assumption.
      unfold last_dot_suffix.
      destruct (Z.ltb_spec (Py.rfind s ".") 0); [reflexivity|lia].
Qed.

Lemma splitext_app (dir base : string) :
  Py.rfind (dir ++ base) "/" = (Z.of_nat (String.length dir) - 1)%Z ->
  snd (posixpath.splitext (dir ++ base)) = last_dot_suffix (lstrip_dots base).
Proof.
  intros Hsep. unfold posixpath.splitext, posixpath.sep, posixpath.extsep.
  rewrite Hsep, rfind_app.
  pose proof (rfind_bounds dir ".") as Hdir.
  pose proof (rfind_bounds base ".") as Hbase.
  destruct (Z.leb_spec 0 (Py.rfind base ".")) as [Hr|Hr].
  - destruct (Z.gtb_spec (Z.of_nat (String.length dir) + Py.rfind base ".")
                (Z.of_nat (String.length dir) - 1)); [|lia].
    replace (Z.of_nat (String.length dir) + Py.rfind base "."
             - (Z.of_nat (String.length dir) - 1 + 1))%Z
      with (Py.rfind base ".") by lia.
    replace (Z.of_nat (String.length dir) - 1 + 1)%Z
      with (Z.of_nat (String.length dir)) by lia.
    now apply skip_leading_dots_spec.
  - destruct (Z.gtb_spec (Py.rfind dir ".") (Z.of_nat (String.length dir) - 1));
      [lia|].
    cbn [snd]. rewrite lstrip_dots_no_dot by assumption.
    unfold last_dot_suffix.
    destruct (Z.ltb_spec (Py.rfind base ".") 0); [reflexivity|lia].
Qed.

(** C7, as amended.  For every name, [get_file_ext] returns the suffix from
    the last dot (the dot included) of the last path component of the name,
    the leading dots of that component skipped; it returns the empty string
    when what remains has no dot. *)
Theorem get_file_ext_spec (name : string) :
  get_file_ext name = last_dot_suffix (lstrip_dots (basename name)).
Proof.
  unfold get_file_ext, basename, Py.slice_from.
  pose proof (rfind_bounds name "/") as Hsep.
  set (n := Z.to_nat (Py.rfind name "/" + 1)).
  rewrite <- (take_drop n name) at 1.
  apply splitext_app. rewrite take_drop, length_take; lia.
Qed.

(** C7, as stated, fails on a name that begins with a dot: [".bashrc"] has
    the dot-delimited suffix [".bashrc"], and [get_file_ext] returns the empty
    string. *)
Lemma get_file_ext_hidden_file :
  get_file_ext ".bashrc" = ""
  /\ last_dot_suffix ".bashrc" = ".bashrc"
  /\ get_file_ext ".bashrc" <> last_dot_suffix ".bashrc".
Proof.
  split; [reflexivity|]. split; [reflexivity|]. discriminate.
Qed.

(** ** Glob matching and the classification by name *)

Lemma matches_literals (l : list ascii) (name : string) :
  fnmatch.matches (map fnmatch.Lit l) name = true
  <-> name = string_of_list_ascii l.
Proof.
  revert name; induction l as [|c l IH]; intros [|x name]; simpl;
    try (split; [reflexivity|reflexivity]);
    try (split; discriminate).
  rewrite andb_true_iff, IH. split.
  - intros [Hx ->]. apply Ascii.eqb_eq in Hx. now subst.
  - intros [= -> ->]. split; [apply Ascii.eqb_refl|reflexivity].
Qed.

Lemma matches_star (items : list fnmatch.item) (name : string) :
  fnmatch.matches (fnmatch.Star :: items) name = true
  <-> exists stem rest,
        name = (stem ++ rest)%string /\ fnmatch.matches items rest = true.
Proof.
  cbn [fnmatch.matches].
  induction name as [|x name IH].
  - rewrite orb_false_r. split.
    + intros H. exists "", "". split; [reflexivity|assumption].
    + intros (stem & rest & Hn & Hm).
      destruct stem; [|discriminate]. simpl in Hn. now subst.
  - rewrite orb_true_iff, IH. split.
    + intros [H|(stem & rest & -> & Hm)].
      * exists "", (String x name). split; [reflexivity|assumption].
      * exists (String x stem), rest. split; [reflexivity|assumption].
    + intros (stem & rest & Hn & Hm). destruct stem as [|y stem].
      * left. simpl in Hn. now subst.
      * right. injection Hn as -> ->. now exists stem, rest.
Qed.

(** A pattern [*suffix] with a literal suffix matches the names that end
    with it, and only those. *)
Lemma fnmatch_ncm (name : string) :
  fnmatch.fnmatch name "*.ncm" = true
  <-> exists stem, name = (stem ++ ".ncm")%string.
Proof.
  change (fnmatch.fnmatch name "*.ncm")
    with (fnmatch.matches
            (fnmatch.Star :: map fnmatch.Lit ["."; "n"; "c"; "m"]%char) name).
  rewrite matches_star. split.
  - intros (stem & rest & -> & Hm). apply matches_literals in Hm.
    subst rest. now exists stem.
  - intros [stem ->]. exists stem, ".ncm". split; [reflexivity|].
    now apply matches_literals.
Qed.

Lemma any_pattern_matches_existsb (name : string) (patterns : list string) :
  any_pattern_matches name patterns = existsb (fnmatch.fnmatch name) patterns.
Proof.
  induction patterns as [|p patterns IH]; simpl; [reflexivity|].
  rewrite IH. now destruct (fnmatch.fnmatch name p).
Qed.

(** C5.  [get_encryption_format] returns ["qmc"] for ["song.qmc3"], ["ncm"]
    for ["track.ncm"], [None] for ["plain.mp3"], and ["qmc"] for ["a.mflac0"],
    which matches the pattern [*.mflac[0]].  The schemes are tried in the
    order of the table ("ncm" before "qmc"), and a pattern has to match the
    whole name: a name with more text after the extension has no scheme. *)
Theorem get_encryption_format_examples :
  get_encryption_format "song.qmc3" = Some "qmc"
  /\ get_encryption_format "track.ncm" = Some "ncm"
  /\ get_encryption_format "plain.mp3" = None
  /\ fnmatch.fnmatch "a.mflac0" "*.mflac[0]" = true
  /\ get_encryption_format "a.mflac0" = Some "qmc"
  /\ (forall name,
        get_encryption_format name =
        if fnmatch.fnmatch name "*.ncm" then Some "ncm"
        else if existsb (fnmatch.fnmatch name)
                  ["*.qmc[023468]"; "*.qmcflac"; "*.qmcogg"; "*.tkm";
                   "*.mflac"; "*.mflac[0]"; "*.mgg"; "*.mgg[01l]";
                   "*.bkcmp3"; "*.bkcm4a"; "*.bkcflac"; "*.bkcwav";
                   "*.bkcape"; "*.bkcogg"; "*.bkcwma"]
             then Some "qmc"
             else None)
  /\ get_encryption_format "track.ncm.bak" = None
  /\ get_encryption_format "a.mflac00" = None.
Proof.
  repeat (split; [reflexivity|]).
  split; [|split; reflexivity].
  intros name. unfold get_encryption_format, SUPPORTED_FORMATS_PATTERNS.
  cbn [first_matching_scheme]. rewrite !any_pattern_matches_existsb.
  cbn [existsb]. rewrite orb_false_r. reflexivity.
Qed.

(** ** The capability probes *)

Ltac unfold_io :=
  unfold Stream.bind, Stream.try_except, Stream.call, Stream.ret,
    Stream.raise, Stream.hasattr, option_map.

Section Probes.
Context {S : Type} (f : Stream.fileobj S).

Lemma bind_Raise {A B : Type} (c : Stream.io S A) (k : A -> Stream.io S B)
  (st : S) (e : Py.exc) :
  Stream.res (c st) = Py.Raise e ->
  Stream.bind c k st =
  {| Stream.res := Py.Raise e; Stream.final := Stream.final (c st);
     Stream.trace := Stream.trace (c st) |}.
Proof. intros H. unfold Stream.bind. now rewrite H. Qed.

Lemma bind_Ok {A B : Type} (c : Stream.io S A) (k : A -> Stream.io S B)
  (st : S) (a : A) :
  Stream.res (c st) = Py.Ok a ->
  Stream.bind c k st =
  {| Stream.res := Stream.res (k a (Stream.final (c st)));
     Stream.final := Stream.final (k a (Stream.final (c st)));
     Stream.trace := Stream.trace (c st)
                     ++ Stream.trace (k a (Stream.final (c st))) |}.
Proof. intros H. unfold Stream.bind. now rewrite H. Qed.

Lemma check_readable_trace (st : S) :
  Stream.trace (check_readable f st) = [Stream.CallRead 0].
Proof.
  unfold check_readable. unfold_io.
  destruct (Stream.read f) as [rd|]; cbn; [|reflexivity].
  destruct (rd 0%Z st) as [[v|e] st1]; cbn.
  - destruct (Stream.is_bytes v); reflexivity.
  - destruct (Py.is_Exception e); reflexivity.
Qed.

Lemma check_seekable_trace (st : S) :
  Stream.trace (check_seekable f st) = [Stream.CallSeek 0 SEEK_END].
Proof.
  unfold check_seekable. unfold_io.
  destruct (Stream.seek f) as [sk|]; cbn; [|reflexivity].
  destruct (sk 0%Z SEEK_END st) as [[v|e] st1]; cbn; [reflexivity|].
  destruct (Py.is_Exception e); reflexivity.
Qed.

Lemma check_writable_trace (st : S) :
  Stream.trace (check_writable f st) = [Stream.CallWrite []].
Proof.
  unfold check_writable. unfold_io.
  destruct (Stream.write f) as [wr|]; cbn; [|reflexivity].
  destruct (wr [] st) as [[v|e] st1]; cbn; [reflexivity|].
  destruct (Py.is_Exception e); reflexivity.
Qed.

Lemma check_seekable_missing (st : S) :
  Stream.seek f = None ->
  check_seekable f st =
  {| Stream.res :=
       Py.Raise (Py.ValueError (Stream.repr f ++ " not a valid file object"));
     Stream.final := st;
     Stream.trace := [Stream.CallSeek 0 SEEK_END] |}.
Proof. intros H. unfold check_seekable. unfold_io. rewrite H. reflexivity. Qed.

Lemma check_seekable_raises (st st' : S) sk (e : Py.exc) :
  Stream.seek f = Some sk ->
  sk 0%Z SEEK_END st = (Py.Raise e, st') ->
  Py.is_Exception e = true ->
  check_seekable f st =
  {| Stream.res :=
       Py.Raise (Py.ValueError ("cannot seek in file object " ++ Stream.repr f));
     Stream.final := st';
     Stream.trace := [Stream.CallSeek 0 SEEK_END] |}.
Proof.
  intros H Hsk He. unfold check_seekable. unfold_io. rewrite H, Hsk. cbn.
  rewrite He. reflexivity.
Qed.

Lemma check_seekable_raises_any (st st' : S) sk (e : Py.exc) :
  Stream.seek f = Some sk ->
  sk 0%Z SEEK_END st = (Py.Raise e, st') ->
  check_seekable f st =
  {| Stream.res :=
       Py.Raise
         (if Py.is_Exception e then
            Py.ValueError ("cannot seek in file object " ++ Stream.repr f)
          else e);
     Stream.final := st';
     Stream.trace := [Stream.CallSeek 0 SEEK_END] |}.
Proof.
  intros H Hsk. unfold check_seekable. unfold_io. rewrite H, Hsk. cbn.
  destruct (Py.is_Exception e); reflexivity.
Qed.

Lemma check_seekable_returns (st st' : S) sk (v : Stream.value) :
  Stream.seek f = Some sk ->
  sk 0%Z SEEK_END st = (Py.Ok v, st') ->
  check_seekable f st =
  {| Stream.res := Py.Ok tt; Stream.final := st';
     Stream.trace := [Stream.CallSeek 0 SEEK_END] |}.
Proof.
  intros H Hsk. unfold check_seekable. unfold_io. rewrite H, Hsk. reflexivity.
Qed.

(** A check that passes made its call and the call returned. *)
Lemma check_readable_Ok (st : S) :
  Stream.res (check_readable f st) = Py.Ok tt ->
  exists rd v,
    Stream.read f = Some rd
    /\ rd 0%Z st = (Py.Ok v, Stream.final (check_readable f st)).
Proof.
  unfold check_readable. unfold_io.
  destruct (Stream.read f) as [rd|]; cbn; [|discriminate].
  destruct (rd 0%Z st) as [[v|e] st1] eqn:E; cbn.
  - destruct (Stream.is_bytes v); cbn; [|discriminate].
    intros _. now exists rd, v.
  - destruct (Py.is_Exception e); cbn; discriminate.
Qed.

Lemma check_seekable_Ok (st : S) :
  Stream.res (check_seekable f st) = Py.Ok tt ->
  exists sk v,
    Stream.seek f = Some sk
    /\ sk 0%Z SEEK_END st = (Py.Ok v, Stream.final (check_seekable f st)).
Proof.
  unfold check_seekable. unfold_io.
  destruct (Stream.seek f) as [sk|]; cbn; [|discriminate].
  destruct (sk 0%Z SEEK_END st) as [[v|e] st1] eqn:E; cbn.
  - intros _. now exists sk, v.
  - destruct (Py.is_Exception e); cbn; discriminate.
Qed.

Lemma check_writable_final (st : S) :
  (forall wr r st', Stream.write f = Some wr -> wr [] st = (r, st') -> st' = st) ->
  Stream.final (check_writable f st) = st.
Proof.
  intros H. unfold check_writable. unfold_io.
  destruct (Stream.write f) as [wr|]; cbn; [|reflexivity].
  specialize (H wr). destruct (wr [] st) as [r st1].
  specialize (H r st1 eq_refl eq_refl). subst st1.
  destruct r as [v|e]; cbn; [reflexivity|].
  destruct (Py.is_Exception e); reflexivity.
Qed.

End Probes.

(** C3, as amended.  [raise_while_not_fileobj] makes the enabled probes in
    the order read, seek, write and stops at the first check that fails: the
    calls made are an initial part of the enabled probes, all of them when
    the call succeeds; a failing check ends the call with its error, the
    state it left and the calls made so far, and the checks after it are not
    run: a failing read check raises with the read as the only call.  When
    the read check passes or is off and the seek check is on, a stream with
    no [seek] attribute gets the error ["... not a valid file object"], the
    one raised for any missing method, and a stream whose [seek] raises an
    [Exception] gets ["cannot seek in file object ..."], which names the
    seek, while an exception that is not below [Exception] comes out as it
    is; in each case the calls made are the read, when it is on, and the
    seek, and no write is attempted, whatever the write flag.  A stream with
    no [read] attribute gets the same ["... not a valid file object"] error
    from the read check. *)
Theorem raise_while_not_fileobj_first_failure {S : Type}
  (f : Stream.fileobj S) (st : S) (readable seekable writable : bool) :
  (exists later,
      enabled_probes readable seekable writable =
      Stream.trace (raise_while_not_fileobj f readable seekable writable st)
      ++ later
      /\ (Stream.res (raise_while_not_fileobj f readable seekable writable st)
          = Py.Ok tt -> later = []))
  /\ (forall e,
         Stream.res (check_readable f st) = Py.Raise e ->
         Stream.res (raise_while_not_fileobj f true seekable writable st)
         = Py.Raise e
         /\ Stream.trace (raise_while_not_fileobj f true seekable writable st)
            = [Stream.CallRead 0])
  /\ (Stream.res ((if readable then check_readable f else Stream.ret tt) st)
      = Py.Ok tt ->
      (Stream.seek f = None ->
       raise_while_not_fileobj f readable true writable st
       = {| Stream.res :=
              Py.Raise
                (Py.ValueError (Stream.repr f ++ " not a valid file object"));
            Stream.final :=
              Stream.final
                ((if readable then check_readable f else Stream.ret tt) st);
            Stream.trace :=
              (if readable then [Stream.CallRead 0] else [])
              ++ [Stream.CallSeek 0 SEEK_END] |})
      /\ (forall sk e st',
             Stream.seek f = Some sk ->
             sk 0%Z SEEK_END
               (Stream.final
                  ((if readable then check_readable f else Stream.ret tt) st))
             = (Py.Raise e, st') ->
             raise_while_not_fileobj f readable true writable st
             = {| Stream.res :=
                    Py.Raise
                      (if Py.is_Exception e then
                         Py.ValueError
                           ("cannot seek in file object " ++ Stream.repr f)
                       else e);
                  Stream.final := st';
                  Stream.trace :=
                    (if readable then [Stream.CallRead 0] else [])
                    ++ [Stream.CallSeek 0 SEEK_END] |})
      /\ mentions "seek" ("cannot seek in file object " ++ Stream.repr f)
         = true)
  /\ (Stream.read f = None ->
      Stream.res (raise_while_not_fileobj f true seekable writable st)
      = Py.Raise (Py.ValueError (Stream.repr f ++ " not a valid file object")))
  /\ (let read_stage :=
        (if readable then check_readable f else Stream.ret tt) st in
      let seek_stage :=
        (if seekable then check_seekable f else Stream.ret tt)
          (Stream.final read_stage) in
      let write_stage :=
        (if writable then check_writable f else Stream.ret tt)
          (Stream.final seek_stage) in
      (forall e,
          Stream.res read_stage = Py.Raise e ->
          raise_while_not_fileobj f readable seekable writable st
          = {| Stream.res := Py.Raise e;
               Stream.final := Stream.final read_stage;
               Stream.trace := if readable then [Stream.CallRead 0] else [] |})
      /\ (forall e,
             Stream.res read_stage = Py.Ok tt ->
             Stream.res seek_stage = Py.Raise e ->
             raise_while_not_fileobj f readable seekable writable st
             = {| Stream.res := Py.Raise e;
                  Stream.final := Stream.final seek_stage;
                  Stream.trace := enabled_probes readable seekable false |})
      /\ (Stream.res read_stage = Py.Ok tt ->
          Stream.res seek_stage = Py.Ok tt ->
          raise_while_not_fileobj f readable seekable writable st
          = {| Stream.res := Stream.res write_stage;
               Stream.final := Stream.final write_stage;
               Stream.trace := enabled_probes readable seekable writable |})).
Proof.
  assert (T1 : forall s,
             Stream.trace
               ((if readable then check_readable f else Stream.ret tt) s)
             = if readable then [Stream.CallRead 0] else []).
  { intros s. destruct readable; [apply check_readable_trace|reflexivity]. }
  assert (T2 : forall s,
             Stream.trace
               ((if seekable then check_seekable f else Stream.ret tt) s)
             = if seekable then [Stream.CallSeek 0 SEEK_END] else []).
  { intros s. destruct seekable; [apply check_seekable_trace|reflexivity]. }
  assert (T3 : forall s,
             Stream.trace
               ((if writable then check_writable f else Stream.ret tt) s)
             = if writable then [Stream.CallWrite []] else []).
  { intros s. destruct writable; [apply check_writable_trace|reflexivity]. }
  split; [|split; [|split; [|split]]].
  - unfold raise_while_not_fileobj, enabled_probes.
    destruct (Stream.res
                ((if readable then check_readable f else Stream.ret tt) st))
      as [[]|e1] eqn:E1.
    + rewrite (bind_Ok _ _ _ _ E1). cbn [Stream.res Stream.trace].
      destruct (Stream.res
                  ((if seekable then check_seekable f else Stream.ret tt)
                     (Stream.final
                        ((if readable then check_readable f
                          else Stream.ret tt) st))))
        as [[]|e2] eqn:E2.
      * rewrite (bind_Ok _ _ _ _ E2). cbn [Stream.res Stream.trace].
        rewrite T1, T2, T3. exists []. rewrite app_nil_r. now split.
      * rewrite (bind_Raise _ _ _ _ E2). cbn [Stream.res Stream.trace].
        rewrite T1, T2. eexists. rewrite <- app_assoc.
        split; [reflexivity|discriminate].
    + rewrite (bind_Raise _ _ _ _ E1). cbn [Stream.res Stream.trace].
      rewrite T1. eexists. split; [reflexivity|discriminate].
  - intros e He. unfold raise_while_not_fileobj.
    rewrite (bind_Raise _ _ _ _ He). cbn [Stream.res Stream.trace].
    split; [reflexivity|apply check_readable_trace].
  - intros Hread. unfold raise_while_not_fileobj.
    rewrite (bind_Ok _ _ _ _ Hread). rewrite T1. split; [|split].
    + intros Hseek.
      rewrite bind_Raise
        with (e := Py.ValueError (Stream.repr f ++ " not a valid file object"));
        rewrite check_seekable_missing by assumption; reflexivity.
    + intros sk e st' Hsk Hcall.
      rewrite bind_Raise
        with (e := if Py.is_Exception e then
                     Py.ValueError
                       ("cannot seek in file object " ++ Stream.repr f)
                   else e);
        rewrite (check_seekable_raises_any f _ _ _ _ Hsk Hcall); reflexivity.
    + reflexivity.
  - intros Hread. unfold raise_while_not_fileobj.
    rewrite bind_Raise
      with (e := Py.ValueError (Stream.repr f ++ " not a valid file object"));
      unfold check_readable; unfold_io; rewrite Hread; reflexivity.
  - cbv zeta. unfold raise_while_not_fileobj, enabled_probes.
    split; [|split].
    + intros e E1. rewrite (bind_Raise _ _ _ _ E1), T1. reflexivity.
    + intros e E1 E2. rewrite (bind_Ok _ _ _ _ E1), (bind_Raise _ _ _ _ E2).
      cbn [Stream.res Stream.final Stream.trace]. rewrite T1, T2.
      now rewrite app_nil_r.
    + intros E1 E2. rewrite (bind_Ok _ _ _ _ E1), (bind_Ok _ _ _ _ E2).
      cbn [Stream.res Stream.final Stream.trace]. rewrite T1, T2, T3.
      reflexivity.
Qed.

Lemma raise_while_not_fileobj_first_failure_witness :
  raise_while_not_fileobj pipe false true true tt
  = {| Stream.res :=
         Py.Raise (Py.ValueError "cannot seek in file object <Pipe object>");
       Stream.final := tt;
       Stream.trace := [Stream.CallSeek 0 SEEK_END] |}
  /\ raise_while_not_fileobj pipe true true true tt
     = {| Stream.res :=
            Py.Raise (Py.ValueError "cannot seek in file object <Pipe object>");
          Stream.final := tt;
          Stream.trace := [Stream.CallRead 0; Stream.CallSeek 0 SEEK_END] |}
  /\ mentions "seek" "cannot seek in file object <Pipe object>" = true.
Proof.
  destruct (raise_while_not_fileobj_first_failure pipe tt false true true)
    as (_ & _ & Hoff & _).
  destruct (raise_while_not_fileobj_first_failure pipe tt true true true)
    as (_ & _ & Hon & _).
  destruct (Hoff eq_refl) as (_ & Hraises_off & _).
  destruct (Hon eq_refl) as (_ & Hraises_on & Hnames).
  split; [|split].
  - apply (Hraises_off (fun _ _ st => (Py.Raise Py.StreamException, st))
             Py.StreamException tt); reflexivity.
  - apply (Hraises_on (fun _ _ st => (Py.Raise Py.StreamException, st))
             Py.StreamException tt); reflexivity.
  - exact Hnames.
Defined.

(** C3, as stated, fails for an object that has no [seek] attribute: the
    error raised is the one raised for any missing method, and its message
    does not name the capability. *)
Lemma missing_seek_error_names_no_capability :
  Stream.res (raise_while_not_fileobj reader_without_seek true true false tt)
  = Py.Raise (Py.ValueError "<Reader object> not a valid file object")
  /\ mentions "seek" "<Reader object> not a valid file object" = false
  /\ mentions "Seek" "<Reader object> not a valid file object" = false.
Proof. repeat split. Qed.

(** ** The cursor after a successful seek check *)

Section SeekSideEffect.
Context {S O : Type} (f : Stream.fileobj S).
Variables (cursor end_of_stream : S -> Z) (other : S -> O).

(** The stream keeps to the contract of Python's [io] streams: a read of
    zero bytes that returns changes nothing, a write of no bytes changes
    nothing, and a seek to the end that returns moves the cursor there and
    changes nothing else. *)
Hypothesis read_zero :
  forall rd st v st',
    Stream.read f = Some rd -> rd 0%Z st = (Py.Ok v, st') -> st' = st.
Hypothesis write_nothing :
  forall wr st r st',
    Stream.write f = Some wr -> wr [] st = (r, st') -> st' = st.
Hypothesis seek_to_end :
  forall sk st v st',
    Stream.seek f = Some sk -> sk 0%Z SEEK_END st = (Py.Ok v, st') ->
    cursor st' = end_of_stream st
    /\ end_of_stream st' = end_of_stream st
    /\ other st' = other st.

(** C8.  When the seek check is on and succeeds (validation without the
    write check succeeds), the validator leaves the cursor of the stream at
    the end of the stream, wherever it was before, and everything else of
    the stream as it was. *)
Theorem seek_check_leaves_cursor_at_end (readable writable : bool) (st : S) :
  Stream.res (raise_while_not_fileobj f readable true false st) = Py.Ok tt ->
  cursor (Stream.final (raise_while_not_fileobj f readable true writable st))
  = end_of_stream
      (Stream.final (raise_while_not_fileobj f readable true writable st))
  /\ end_of_stream
       (Stream.final (raise_while_not_fileobj f readable true writable st))
     = end_of_stream st
  /\ other (Stream.final (raise_while_not_fileobj f readable true writable st))
     = other st.
Proof.
  unfold raise_while_not_fileobj.
  set (c1 := if readable then check_readable f else Stream.ret tt).
  assert (F1 : Stream.res (c1 st) = Py.Ok tt -> Stream.final (c1 st) = st).
  { subst c1. destruct readable; [|reflexivity]. intros H.
    destruct (check_readable_Ok f st H) as (rd & v & Hrd & Hcall).
    exact (read_zero _ _ _ _ Hrd Hcall). }
  destruct (Stream.res (c1 st)) as [[]|e1] eqn:E1.
  2:{ rewrite (bind_Raise _ _ _ _ E1). discriminate. }
  rewrite !(bind_Ok _ _ _ _ E1). cbn [Stream.res Stream.final].
  rewrite (F1 eq_refl).
  destruct (Stream.res (check_seekable f st)) as [[]|e2] eqn:E2.
  2:{ rewrite (bind_Raise _ _ _ _ E2). discriminate. }
  intros _. rewrite (bind_Ok _ _ _ _ E2). cbn [Stream.final].
  destruct (check_seekable_Ok f st E2) as (sk & v & Hsk & Hcall).
  destruct (seek_to_end _ _ _ _ Hsk Hcall) as (Hc & He & Ho).
  assert (F3 : Stream.final
                 ((if writable then check_writable f else Stream.ret tt)
                    (Stream.final (check_seekable f st)))
               = Stream.final (check_seekable f st)).
  { destruct writable; [|reflexivity].
    apply check_writable_final. intros wr r st' Hwr Hw.
    exact (write_nothing _ _ _ _ Hwr Hw). }
  rewrite F3. repeat split; congruence.
Qed.

End SeekSideEffect.

Lemma seek_check_leaves_cursor_at_end_witness :
  BytesIO.pos
    (Stream.final
       (raise_while_not_fileobj BytesIO.fileobj true true false
          {| BytesIO.buffer := [x66; x4c; x61; x43; x00];
             BytesIO.pos := 0; BytesIO.closed := false |}))
  = 5%Z.
Proof.
  set (st0 := {| BytesIO.buffer := [x66; x4c; x61; x43; x00];
                 BytesIO.pos := 0; BytesIO.closed := false |}).
  assert (H := seek_check_leaves_cursor_at_end BytesIO.fileobj
                 BytesIO.pos BytesIO.size BytesIO.content).
  assert (Hread : forall rd st v st',
             Stream.read BytesIO.fileobj = Some rd ->
             rd 0%Z st = (Py.Ok v, st') -> st' = st).
  { intros rd [buf p c] v st' [= <-]. unfold BytesIO.read. cbn.
    destruct c; [discriminate|]. intros [= _ <-]. f_equal. lia. }
  assert (Hwrite : forall wr st r st',
             Stream.write BytesIO.fileobj = Some wr ->
             wr [] st = (r, st') -> st' = st).
  { intros wr [buf p c] r st' [= <-]. unfold BytesIO.write. cbn.
    destruct c; now intros [= _ <-]. }
  assert (Hseek : forall sk st v st',
             Stream.seek BytesIO.fileobj = Some sk ->
             sk 0%Z SEEK_END st = (Py.Ok v, st') ->
             BytesIO.pos st' = BytesIO.size st
             /\ BytesIO.size st' = BytesIO.size st
             /\ BytesIO.content st' = BytesIO.content st).
  { intros sk [buf p c] v st' [= <-]. unfold BytesIO.seek. cbn.
    destruct c; [discriminate|]. intros [= _ <-].
    unfold BytesIO.size, BytesIO.content. cbn. repeat split. lia. }
  destruct (H Hread Hwrite Hseek true false st0 eq_refl) as (Hc & He & _).
  rewrite Hc, He. reflexivity.
Defined.

(** ** XOR of byte strings *)

Lemma int_of_byte_range (b : byte) : (0 <= Py.int_of_byte b < 256)%Z.
Proof.
  unfold Py.int_of_byte. pose proof (Byte.to_N_bounded b). lia.
Qed.

Lemma byte_of_int_of_byte (b : byte) : Py.byte_of_int (Py.int_of_byte b) = Some b.
Proof.
  unfold Py.byte_of_int, Py.int_of_byte.
  destruct (Z.ltb_spec (Z.of_N (Byte.to_N b)) 0); [lia|].
  rewrite N2Z.id. apply Byte.of_to_N.
Qed.

Lemma byte_of_int_in_range (z : Z) :
  (0 <= z < 256)%Z ->
  exists c, Py.byte_of_int z = Some c /\ Py.int_of_byte c = z.
Proof.
  intros Hz. unfold Py.byte_of_int, Py.int_of_byte.
  destruct (Z.ltb_spec z 0); [lia|].
  destruct (Byte.of_N (Z.to_N z)) as [c|] eqn:E.
  - exists c. split; [reflexivity|].
    apply Byte.to_of_N in E. rewrite E. lia.
  - apply Byte.of_N_None_iff in E. lia.
Qed.

Lemma lxor_byte_range (x y : Z) :
  (0 <= x < 256)%Z -> (0 <= y < 256)%Z -> (0 <= Z.lxor x y < 256)%Z.
Proof.
  intros Hx Hy.
  assert (Hnn : (0 <= Z.lxor x y)%Z) by (apply Z.lxor_nonneg; lia).
  split; [assumption|].
  destruct (Z.eq_dec (Z.lxor x y) 0) as [->|Hne]; [lia|].
  change 256%Z with (2 ^ 8)%Z.
  apply Z.log2_lt_pow2; [lia|].
  pose proof (Z.log2_lxor x y (proj1 Hx) (proj1 Hy)) as Hl.
  assert (Hb : forall v, (0 <= v < 256)%Z -> (Z.log2 v < 8)%Z).
  { intros v Hv. destruct (Z.eq_dec v 0) as [->|Hv0]; [reflexivity|].
    apply Z.log2_lt_pow2; [lia|]. change (2 ^ 8)%Z with 256%Z. lia. }
  pose proof (Hb x Hx). pose proof (Hb y Hy). lia.
Qed.

Lemma xor_byte_exists (x y : byte) :
  exists c,
    Py.byte_of_int (Z.lxor (Py.int_of_byte x) (Py.int_of_byte y)) = Some c
    /\ Py.int_of_byte c = Z.lxor (Py.int_of_byte x) (Py.int_of_byte y).
Proof.
  apply byte_of_int_in_range, lxor_byte_range; apply int_of_byte_range.
Qed.

Lemma xor_bytestrings_cons (x y c : byte) (a b : Py.bytes) :
  Py.byte_of_int (Z.lxor (Py.int_of_byte x) (Py.int_of_byte y)) = Some c ->
  xor_bytestrings (x :: a) (y :: b) =
  match xor_bytestrings a b with
  | Py.Ok r => Py.Ok (c :: r)
  | Py.Raise e => Py.Raise e
  end.
Proof.
  intros Hc. unfold xor_bytestrings. simpl.
  destruct (Nat.eqb (List.length a) (List.length b)); simpl; [|reflexivity].
  rewrite Hc. reflexivity.
Qed.

Lemma xor_bytestrings_mismatch (a b : Py.bytes) :
  List.length a <> List.length b ->
  xor_bytestrings a b =
  Py.Raise (Py.ValueError "Only byte strings of equal length can be xored").
Proof.
  intros H. unfold xor_bytestrings.
  apply Nat.eqb_neq in H. rewrite H. reflexivity.
Qed.

Lemma xor_bytestrings_pointwise (a b : Py.bytes) :
  List.length a = List.length b ->
  exists r,
    xor_bytestrings a b = Py.Ok r
    /\ List.length r = List.length a
    /\ forall i, i < List.length a ->
         Py.int_of_byte (nth i r x00) =
         Z.lxor (Py.int_of_byte (nth i a x00)) (Py.int_of_byte (nth i b x00)).
Proof.
  revert b; induction a as [|x a IH]; intros [|y b] Hlen; try discriminate.
  - exists []. repeat split. intros i Hi. inversion Hi.
  - injection Hlen as Hlen.
    destruct (IH b Hlen) as (r & Hr & Hl & Hnth).
    destruct (xor_byte_exists x y) as (c & Hc & Hint).
    exists (c :: r). rewrite (xor_bytestrings_cons _ _ _ _ _ Hc), Hr.
    split; [reflexivity|]. split; [simpl; now rewrite Hl|].
    intros [|i] Hi; simpl; [assumption|]. apply Hnth. simpl in Hi. lia.
Qed.

Lemma xor_bytestrings_self (a : Py.bytes) :
  xor_bytestrings a a = Py.Ok (repeat x00 (List.length a)).
Proof.
  induction a as [|x a IH]; [reflexivity|].
  rewrite (xor_bytestrings_cons x x x00), IH; [reflexivity|].
  rewrite Z.lxor_nilpotent. reflexivity.
Qed.

(** C4.  [xor_bytestrings a b] raises its length error exactly when the
    lengths differ, and raises nothing else; for equal lengths it returns a
    byte string of that length whose byte at every index is the XOR of the
    bytes of [a] and [b] there; [xor_bytestrings a a] is all zero bytes. *)
Theorem xor_bytestrings_spec (a b : Py.bytes) :
  (xor_bytestrings a b =
     Py.Raise (Py.ValueError "Only byte strings of equal length can be xored")
   <-> List.length a <> List.length b)
  /\ ((exists e, xor_bytestrings a b = Py.Raise e)
      <-> List.length a <> List.length b)
  /\ (List.length a = List.length b ->
      exists r,
        xor_bytestrings a b = Py.Ok r
        /\ List.length r = List.length a
        /\ forall i, i < List.length a ->
             Py.int_of_byte (nth i r x00) =
             Z.lxor (Py.int_of_byte (nth i a x00))
               (Py.int_of_byte (nth i b x00)))
  /\ xor_bytestrings a a = Py.Ok (repeat x00 (List.length a)).
Proof.
  assert (Hok : forall e, xor_bytestrings a b = Py.Raise e ->
                          List.length a <> List.length b).
  { intros e He Hlen.
    destruct (xor_bytestrings_pointwise a b Hlen) as (r & Hr & _).
    congruence. }
  split; [|split; [|split]].
  - split; [apply Hok|apply xor_bytestrings_mismatch].
  - split.
    + intros [e He]. exact (Hok e He).
    + intros H. eexists. now apply xor_bytestrings_mismatch.
  - apply xor_bytestrings_pointwise.
  - apply xor_bytestrings_self.
Qed.

Lemma xor_bytestrings_spec_witness :
  exists r,
    xor_bytestrings [x0f; xf0; xaa] [xff; xff; x0a] = Py.Ok r
    /\ List.length r = 3
    /\ forall i, i < 3 ->
         Py.int_of_byte (nth i r x00) =
         Z.lxor (Py.int_of_byte (nth i [x0f; xf0; xaa] x00))
           (Py.int_of_byte (nth i [xff; xff; x0a] x00)).
Proof.
  destruct (xor_bytestrings_spec [x0f; xf0; xaa] [xff; xff; x0a])
    as (_ & _ & H & _).
  apply H. reflexivity.
Defined.

(** C10.  For byte strings [a] and [b] of equal length, XOR-ing the XOR of
    [a] and [b] with [b] again gives back [a], and the XOR of [a] and [b] is
    the XOR of [b] and [a]. *)
Theorem xor_bytestrings_involutive_commutative (a b : Py.bytes) :
  List.length a = List.length b ->
  (exists c, xor_bytestrings a b = Py.Ok c /\ xor_bytestrings c b = Py.Ok a)
  /\ xor_bytestrings a b = xor_bytestrings b a.
Proof.
  revert b; induction a as [|x a IH]; intros [|y b] Hlen; try discriminate.
  - split; [exists []; split; reflexivity|reflexivity].
  - injection Hlen as Hlen.
    destruct (IH b Hlen) as [(r & Hr & Hback) Hcomm].
    destruct (xor_byte_exists x y) as (c & Hc & Hint).
    split.
    + exists (c :: r). rewrite (xor_bytestrings_cons _ _ _ _ _ Hc), Hr.
      split; [reflexivity|].
      rewrite (xor_bytestrings_cons c y x), Hback; [reflexivity|].
      rewrite Hint, Z.lxor_assoc, Z.lxor_nilpotent, Z.lxor_0_r.
      apply byte_of_int_of_byte.
    + rewrite (xor_bytestrings_cons _ _ _ _ _ Hc).
      rewrite Z.lxor_comm in Hc.
      rewrite (xor_bytestrings_cons _ _ _ _ _ Hc), Hcomm. reflexivity.
Qed.

Lemma xor_bytestrings_involutive_commutative_witness :
  (exists c, xor_bytestrings [x12; x34] [xab; xcd] = Py.Ok c
             /\ xor_bytestrings c [xab; xcd] = Py.Ok [x12; x34])
  /\ xor_bytestrings [x12; x34] [xab; xcd] = xor_bytestrings [xab; xcd] [x12; x34].
Proof.
  apply (xor_bytestrings_involutive_commutative [x12; x34] [xab; xcd]).
  reflexivity.
Defined.

(** * Further properties *)

(** ** More on the registries and the sniffers *)

Lemma startswith_firstn (n : nat) (data header : Py.bytes) :
  List.length header <= n ->
  Py.startswith (firstn n data) header = Py.startswith data header.
Proof.
  revert n data; induction header as [|h header IH]; intros n data Hn;
    [reflexivity|].
  destruct n as [|n]; [simpl in Hn; lia|].
  destruct data as [|d data]; [reflexivity|].
  simpl. rewrite IH by (simpl in Hn; lia). reflexivity.
Qed.

Lemma first_matching_header_firstn (n : nat) m (data : Py.bytes) :
  (forall header label, In (header, label) m -> List.length header <= n) ->
  first_matching_header m (firstn n data) = first_matching_header m data.
Proof.
  induction m as [|[h l] m IH]; intros H; [reflexivity|].
  simpl. rewrite startswith_firstn by (apply (H h l); now left).
  rewrite IH; [reflexivity|].
  intros h' l' Hin. apply (H h' l'). now right.
Qed.

Lemma dict_get_In {V : Type} (d : Py.dict string V) (k : string) (v : V) :
  Py.get String.eqb d k = Some v -> In (k, v) d.
Proof.
  induction d as [|[k' v'] d IH]; simpl; [discriminate|].
  destruct (String.eqb_spec k' k) as [->|_].
  - intros [= ->]. now left.
  - intros H. right. now apply IH.
Qed.

Lemma possible_audio_header_In (fmt : string) (header : Py.bytes) :
  get_possible_audio_header fmt = Some header ->
  In (header, Py.removeprefix_dot fmt) AUDIO_FILE_HEADER_FORMAT_MAP.
Proof.
  unfold get_possible_audio_header. intros H. apply dict_get_In in H.
  remember (Py.removeprefix_dot fmt) as k eqn:Ek. clear Ek. simpl in H.
  repeat (destruct H as [H|H]; [injection H as <- <-; simpl; tauto|]).
  contradiction.
Qed.

Lemma possible_image_header_In (fmt : string) (header : Py.bytes) :
  get_possible_image_header fmt = Some header ->
  In (header, Py.removeprefix_dot fmt) IMAGE_FILE_HEADER_MIME_MAP.
Proof.
  unfold get_possible_image_header. intros H. apply dict_get_In in H.
  remember (Py.removeprefix_dot fmt) as k eqn:Ek. clear Ek. simpl in H.
  repeat (destruct H as [H|H]; [injection H as <- <-; simpl; tauto|]).
  contradiction.
Qed.

(** X1.  A sniffer returns a label exactly when some entry of its registry
    has that label and a header the data starts with: the answer does not
    depend on the order of the entries. *)
Theorem sniffers_any_match (data : Py.bytes) (label : string) :
  (get_audio_format data = Some label
   <-> exists header,
         In (header, label) AUDIO_FILE_HEADER_FORMAT_MAP
         /\ Py.startswith data header = true)
  /\ (get_image_mime data = Some label
      <-> exists header,
            In (header, label) IMAGE_FILE_HEADER_MIME_MAP
            /\ Py.startswith data header = true).
Proof.
  split; (split; [apply first_matching_header_Some|]);
    intros (header & Hin & Hs);
    apply startswith_prefix in Hs as [suffix ->]; simpl in Hin;
    repeat (destruct Hin as [Hin|Hin]; [injection Hin as <- <-; reflexivity|]);
    contradiction.
Qed.

(** X2.  No data is taken for audio and for an image at once: when
    [get_audio_format] returns a label, [get_image_mime] returns [None], and
    the other way round. *)
Theorem audio_and_image_exclusive (data : Py.bytes) (label : string) :
  (get_audio_format data = Some label -> get_image_mime data = None)
  /\ (get_image_mime data = Some label -> get_audio_format data = None).
Proof.
  split; intros H; apply first_matching_header_Some in H as (h & Hin & Hs);
    apply startswith_prefix in Hs as [suffix ->]; simpl in Hin;
    repeat (destruct Hin as [Hin|Hin]; [injection Hin as <- <-; reflexivity|]);
    contradiction.
Qed.

Lemma audio_and_image_exclusive_witness :
  get_image_mime [xff; xf1; x50; x80] = None
  /\ get_audio_format [xff; xd8; xff; xe0] = None.
Proof.
  split.
  - apply (proj1 (audio_and_image_exclusive [xff; xf1; x50; x80] "aac")).
    reflexivity.
  - apply (proj2 (audio_and_image_exclusive [xff; xd8; xff; xe0] "image/jpeg")).
    reflexivity.
Defined.

(** X3.  The sniffers look at the head of the data only: the first 16 bytes
    decide [get_audio_format], the first 8 bytes decide [get_image_mime]. *)
Theorem sniffers_read_the_head_only (data : Py.bytes) :
  get_audio_format (firstn 16 data) = get_audio_format data
  /\ get_image_mime (firstn 8 data) = get_image_mime data.
Proof.
  split; apply first_matching_header_firstn; intros header label H;
    simpl in H;
    repeat (destruct H as [H|H]; [injection H as <- <-; simpl; lia|]);
    contradiction.
Qed.

(** X4.  A reverse lookup returns a header exactly when the label, one
    leading dot dropped, is registered with that header; for every other
    label it returns [None]. *)
Theorem reverse_lookup_exact (fmt : string) (header : Py.bytes) :
  (get_possible_audio_header fmt = Some header
   <-> In (header, Py.removeprefix_dot fmt) AUDIO_FILE_HEADER_FORMAT_MAP)
  /\ (get_possible_image_header fmt = Some header
      <-> In (header, Py.removeprefix_dot fmt) IMAGE_FILE_HEADER_MIME_MAP).
Proof.
  split; (split;
          [first [apply possible_audio_header_In|apply possible_image_header_In]|]);
    unfold get_possible_audio_header, get_possible_image_header;
    remember (Py.removeprefix_dot fmt) as k eqn:Ek; clear Ek;
    intros H; simpl in H;
    repeat (destruct H as [H|H]; [injection H as <- <-; reflexivity|]);
    contradiction.
Qed.

(** X5.  The header a reverse lookup returns is one the sniffer recognises:
    data that starts with it is sniffed as the label that was looked up, one
    leading dot dropped. *)
Theorem reverse_lookup_then_sniff (fmt : string) (header suffix : Py.bytes) :
  (get_possible_audio_header fmt = Some header ->
   get_audio_format (header ++ suffix) = Some (Py.removeprefix_dot fmt))
  /\ (get_possible_image_header fmt = Some header ->
      get_image_mime (header ++ suffix) = Some (Py.removeprefix_dot fmt)).
Proof.
  split; intros H;
    [apply possible_audio_header_In in H|apply possible_image_header_In in H];
    remember (Py.removeprefix_dot fmt) as k eqn:Ek; clear Ek; simpl in H;
    repeat (destruct H as [H|H]; [injection H as <- <-; reflexivity|]);
    contradiction.
Qed.

Lemma reverse_lookup_then_sniff_witness :
  get_audio_format ([x4f; x67; x67; x53] ++ [x00; x02]) = Some "ogg"
  /\ get_image_mime ([x42; x4d] ++ [x36; x00]) = Some "image/bmp".
Proof.
  split.
  - apply (proj1 (reverse_lookup_then_sniff ".ogg" [x4f; x67; x67; x53] [x00; x02])).
    reflexivity.
  - apply (proj2 (reverse_lookup_then_sniff "image/bmp" [x42; x4d] [x36; x00])).
    reflexivity.
Defined.

(** X6.  The reverse lookups drop one leading dot and no more: a label that
    does not begin with a dot is looked up the same with and without a dot
    before it, and no label with two dots before it is found. *)
Theorem reverse_lookup_leading_dots (fmt : string) :
  (String.prefix "." fmt = false ->
   get_possible_audio_header ("." ++ fmt) = get_possible_audio_header fmt
   /\ get_possible_image_header ("." ++ fmt) = get_possible_image_header fmt)
  /\ get_possible_audio_header (".." ++ fmt) = None
  /\ get_possible_image_header (".." ++ fmt) = None.
Proof.
  split; [|split; reflexivity].
  intros H. unfold get_possible_audio_header, get_possible_image_header.
  assert (E : Py.removeprefix_dot fmt = fmt).
  { destruct fmt as [|c fmt]; [reflexivity|].
    destruct c as [[] [] [] [] [] [] [] []]; try reflexivity.
    simpl in H. destruct fmt; discriminate. }
  cbn [append Py.removeprefix_dot]. rewrite E. split; reflexivity.
Qed.

Lemma reverse_lookup_leading_dots_witness :
  get_possible_audio_header ("." ++ "flac") = get_possible_audio_header "flac"
  /\ get_possible_image_header ("." ++ "flac") = get_possible_image_header "flac".
Proof.
  apply (proj1 (reverse_lookup_leading_dots "flac")). reflexivity.
Defined.

(** *** The dict comprehension *)

Lemma dict_set_fresh {K V : Type} (keq : K -> K -> bool) (d : Py.dict K V)
  (k : K) (v : V) :
  (forall k' v', In (k', v') d -> keq k' k = false) ->
  Py.set keq d k v = d ++ [(k, v)].
Proof.
  induction d as [|[k' v'] d IH]; intros H; [reflexivity|].
  simpl. rewrite (H k' v') by now left.
  rewrite IH; [reflexivity|].
  intros k2 v2 Hin. apply (H k2 v2). now right.
Qed.

(** X7.  Inverting a dict whose values are pairwise distinct swaps every
    item and keeps the order: nothing is lost and nothing overwritten. *)
Theorem invert_distinct_values {K V : Type} (veq : V -> V -> bool)
  (d : Py.dict K V) :
  (forall x y, veq x y = true <-> x = y) ->
  NoDup (map snd d) ->
  Py.invert veq d = map (fun kv => (snd kv, fst kv)) d.
Proof.
  intros Hveq. unfold Py.invert.
  assert (G : forall acc : Py.dict V K,
             NoDup (map fst acc ++ map snd d) ->
             fold_left (fun acc kv => Py.set veq acc (snd kv) (fst kv)) d acc
             = acc ++ map (fun kv => (snd kv, fst kv)) d).
  { induction d as [|[k v] d IH]; intros acc Hnd; simpl.
    - now rewrite app_nil_r.
    - simpl in Hnd. rewrite dict_set_fresh.
      + rewrite IH.
        * rewrite <- app_assoc. reflexivity.
        * rewrite map_app. simpl. rewrite <- app_assoc. simpl.
          apply NoDup_remove_1 in Hnd as Hnd1.
          apply NoDup_remove_2 in Hnd.
          apply NoDup_app_remove_l in Hnd1 as Hd.
          clear IH. revert Hnd Hnd1. generalize (map fst acc) (map snd d).
          intros l1 l2 Hnot Hnd.
          induction l1 as [|a l1 IHl]; simpl in *.
          -- constructor; assumption.
          -- inversion Hnd as [|? ? Ha Hnd']; subst. constructor.
             ++ intros Hin. apply in_app_or in Hin as [Hin|[->|Hin]].
                ** apply Ha, in_or_app. now left.
                ** apply Hnot. now left.
                ** apply Ha, in_or_app. now right.
             ++ apply IHl; [|assumption]. intros Hin. apply Hnot. now right.
      + intros k' v' Hin.
        destruct (veq k' v) eqn:E; [|reflexivity].
        apply Hveq in E. subst k'. exfalso.
        apply NoDup_remove_2 in Hnd. apply Hnd, in_or_app. left.
        change v with (fst (v, v')). now apply in_map. }
  intros Hnd. now apply (G []).
Qed.

Lemma invert_distinct_values_witness :
  AUDIO_FILE_FORMAT_HEADER_MAP
  = map (fun kv => (snd kv, fst kv)) AUDIO_FILE_HEADER_FORMAT_MAP.
Proof.
  apply (invert_distinct_values String.eqb AUDIO_FILE_HEADER_FORMAT_MAP).
  - apply String.eqb_eq.
  - simpl. repeat (constructor; [simpl; intuition discriminate|]). constructor.
Defined.

(** ** More on the extension of a file name *)

Lemma string_app_nil_r (s : string) : (s ++ "")%string = s.
Proof. induction s as [|x s IH]; simpl; [reflexivity|now rewrite IH]. Qed.

Lemma skip_leading_dots_cases (p : string) (d i : Z) (fuel : nat) :
  posixpath.skip_leading_dots p d i fuel = (p, "")
  \/ posixpath.skip_leading_dots p d i fuel
     = (Py.slice_to p d, Py.slice_from p d).
Proof.
  revert i; induction fuel as [|fuel IH]; intros i; simpl; [now left|].
  destruct (negb _); [now right|apply IH].
Qed.

Lemma splitext_cases (p : string) :
  posixpath.splitext p = (p, "")
  \/ ((Py.rfind p "/" < Py.rfind p ".")%Z
      /\ posixpath.splitext p
         = (Py.slice_to p (Py.rfind p "."), Py.slice_from p (Py.rfind p "."))).
Proof.
  unfold posixpath.splitext, posixpath.sep, posixpath.extsep.
  destruct (Z.gtb_spec (Py.rfind p ".") (Py.rfind p "/")) as [H|H];
    [|now left].
  destruct (skip_leading_dots_cases p (Py.rfind p ".") (Py.rfind p "/" + 1)
              (Z.to_nat (Py.rfind p "." - (Py.rfind p "/" + 1)))) as [E|E];
    rewrite E; [now left|right]. split; [lia|reflexivity].
Qed.

Lemma rfind_drop (n : nat) (s : string) (c : ascii) :
  Py.rfind (Py.drop n s) c =
  if (Py.rfind s c <? Z.of_nat n)%Z then (-1)%Z
  else (Py.rfind s c - Z.of_nat n)%Z.
Proof.
  revert s; induction n as [|n IH]; intros s.
  - cbn [Py.drop]. pose proof (rfind_bounds s c).
    destruct (Z.ltb_spec (Py.rfind s c) (Z.of_nat 0)); lia.
  - destruct s as [|a s]; [reflexivity|].
    cbn [Py.drop Py.rfind]. rewrite IH. pose proof (rfind_bounds s c).
    destruct (Z.leb_spec 0 (Py.rfind s c)).
    + destruct (Z.ltb_spec (Py.rfind s c) (Z.of_nat n));
        destruct (Z.ltb_spec (Py.rfind s c + 1) (Z.of_nat (Datatypes.S n))); lia.
    + destruct (Z.ltb_spec (Py.rfind s c) (Z.of_nat n)); [|lia].
      destruct (Ascii.eqb a c).
      * destruct (Z.ltb_spec 0 (Z.of_nat (Datatypes.S n))); lia.
      * destruct (Z.ltb_spec (-1) (Z.of_nat (Datatypes.S n))); lia.
Qed.

Lemma rfind_zero (s : string) (c : ascii) :
  Py.rfind s c = 0%Z ->
  exists e, s = String c e /\ (Py.rfind e c < 0)%Z.
Proof.
  destruct s as [|a s]; cbn [Py.rfind]; [discriminate|].
  pose proof (rfind_bounds s c).
  destruct (Z.leb_spec 0 (Py.rfind s c)); [lia|].
  destruct (Ascii.eqb_spec a c) as [->|_]; [|discriminate].
  intros _. now exists s.
Qed.

Lemma rfind_tail (a c : ascii) (s : string) :
  (Py.rfind (String a s) c < 0)%Z -> (Py.rfind s c < 0)%Z.
Proof.
  cbn [Py.rfind]. destruct (Z.leb_spec 0 (Py.rfind s c)); lia.
Qed.

(** X8.  The extension is the end of the name: the name is a root followed
    by what [get_file_ext] returns. *)
Theorem get_file_ext_is_suffix (name : string) :
  (fst (posixpath.splitext name) ++ get_file_ext name)%string = name.
Proof.
  unfold get_file_ext.
  destruct (splitext_cases name) as [E|[_ E]]; rewrite E; cbn [fst snd].
  - apply string_app_nil_r.
  - apply take_drop.
Qed.

(** X9.  An extension is empty, or it is one dot followed by characters none
    of which is a dot or a path separator. *)
Theorem get_file_ext_shape (name : string) :
  get_file_ext name = ""
  \/ exists e,
       get_file_ext name = String "." e
       /\ (Py.rfind e "." < 0)%Z
       /\ (Py.rfind e "/" < 0)%Z.
Proof.
  unfold get_file_ext.
  destruct (splitext_cases name) as [E|[Hlt E]]; rewrite E; cbn [snd];
    [now left|right].
  pose proof (rfind_bounds name "/") as Hs.
  unfold Py.slice_from.
  pose proof (rfind_drop (Z.to_nat (Py.rfind name ".")) name ".") as Hdot.
  pose proof (rfind_drop (Z.to_nat (Py.rfind name ".")) name "/") as Hsep.
  destruct (Z.ltb_spec (Py.rfind name ".")
              (Z.of_nat (Z.to_nat (Py.rfind name ".")))); [lia|].
  destruct (Z.ltb_spec (Py.rfind name "/")
              (Z.of_nat (Z.to_nat (Py.rfind name ".")))); [|lia].
  replace (Py.rfind name "." - Z.of_nat (Z.to_nat (Py.rfind name ".")))%Z
    with 0%Z in Hdot by lia.
  destruct (rfind_zero _ _ Hdot) as (e & He & Hno).
  exists e. rewrite He in Hsep |- *. split; [reflexivity|]. split; [assumption|].
  apply (rfind_tail "."). lia.
Qed.

Lemma lstrip_dots_app (b x : string) :
  lstrip_dots b <> "" -> lstrip_dots (b ++ x) = (lstrip_dots b ++ x)%string.
Proof.
  induction b as [|a b IH]; intros H; [now contradiction H|].
  destruct (Ascii.eqb_spec a ".") as [->|Ha].
  - cbn [append lstrip_dots] in *. now apply IH.
  - cbn [append]. now rewrite !lstrip_dots_not_dot.
Qed.

Lemma lstrip_dots_app_empty (b x : string) :
  lstrip_dots b = "" -> lstrip_dots (b ++ x) = lstrip_dots x.
Proof.
  induction b as [|a b IH]; intros H; [reflexivity|].
  destruct (Ascii.eqb_spec a ".") as [->|Ha].
  - cbn [append lstrip_dots] in *. now apply IH.
  - rewrite lstrip_dots_not_dot in H by assumption. discriminate.
Qed.

Lemma splitext_with_extension (stem e : string) :
  (Py.rfind e "/" < 0)%Z ->
  snd (posixpath.splitext (stem ++ String "." e))
  = last_dot_suffix (lstrip_dots (basename stem ++ String "." e)).
Proof.
  intros Hsep. unfold basename, Py.slice_from.
  pose proof (rfind_bounds stem "/") as Hb.
  set (n := Z.to_nat (Py.rfind stem "/" + 1)).
  rewrite <- (take_drop n stem) at 1. rewrite string_app_assoc.
  apply splitext_app. rewrite <- string_app_assoc, take_drop, rfind_app.
  assert (Hno : (Py.rfind (String "." e) "/" < 0)%Z).
  { cbn [Py.rfind]. destruct (Z.leb_spec 0 (Py.rfind e "/")); [lia|].
    cbn. lia. }
  destruct (Z.leb_spec 0 (Py.rfind (String "." e) "/")); [lia|].
  rewrite length_take; lia.
Qed.

(** X10.  Adding an extension [.e] (no dot and no separator in [e]) to a
    stem gives a name with the extension [.e], unless the last component of
    the stem is empty or made of dots only; then the name has no extension. *)
Theorem get_file_ext_of_added_extension (stem e : string) :
  (Py.rfind e "." < 0)%Z -> (Py.rfind e "/" < 0)%Z ->
  (lstrip_dots (basename stem) <> "" ->
   get_file_ext (stem ++ String "." e) = String "." e)
  /\ (lstrip_dots (basename stem) = "" ->
      get_file_ext (stem ++ String "." e) = "").
Proof.
  intros Hdot Hsep. unfold get_file_ext.
  rewrite splitext_with_extension by assumption. split; intros H.
  - rewrite lstrip_dots_app by assumption. unfold last_dot_suffix.
    rewrite rfind_app.
    assert (E : Py.rfind (String "." e) "." = 0%Z).
    { cbn [Py.rfind]. destruct (Z.leb_spec 0 (Py.rfind e ".")); [lia|].
      reflexivity. }
    rewrite E. cbn [Z.leb Z.compare].
    destruct (Z.ltb_spec
                (Z.of_nat (String.length (lstrip_dots (basename stem))) + 0) 0);
      [lia|].
    unfold Py.slice_from.
    replace (Z.to_nat (Z.of_nat (String.length (lstrip_dots (basename stem))) + 0))
      with (String.length (lstrip_dots (basename stem)) + 0) by lia.
    apply drop_app_length.
  - rewrite lstrip_dots_app_empty by assumption. cbn [lstrip_dots].
    rewrite lstrip_dots_no_dot by assumption. unfold last_dot_suffix.
    destruct (Z.ltb_spec (Py.rfind e ".") 0); [reflexivity|lia].
Qed.

Lemma get_file_ext_of_added_extension_witness :
  get_file_ext ("music/.hidden" ++ String "." "qmc0") = String "." "qmc0"
  /\ get_file_ext ("music/.." ++ String "." "qmc0") = "".
Proof.
  split.
  - apply (proj1 (get_file_ext_of_added_extension "music/.hidden" "qmc0"
                    ltac:(reflexivity) ltac:(reflexivity))).
    discriminate.
  - apply (proj2 (get_file_ext_of_added_extension "music/.." "qmc0"
                    ltac:(reflexivity) ltac:(reflexivity))).
    reflexivity.
Defined.

(** ** More on the classification by name *)

Lemma ends_with_iff (name suffix : string) :
  ends_with name suffix = true <-> exists stem, name = (stem ++ suffix)%string.
Proof.
  induction name as [|x name IH]; cbn [ends_with].
  - rewrite orb_false_r, String.eqb_eq. split.
    + intros <-. now exists "".
    + intros [stem H]. destruct stem; [exact H|discriminate].
  - rewrite orb_true_iff, String.eqb_eq, IH. split.
    + intros [<-|[stem ->]]; [now exists ""|now exists (String x stem)].
    + intros [[|y stem] H]; [now left|right].
      injection H as -> ->. now exists stem.
Qed.

Lemma matches_star_literals (l : list ascii) (name : string) :
  fnmatch.matches (fnmatch.Star :: map fnmatch.Lit l) name
  = ends_with name (string_of_list_ascii l).
Proof.
  apply eq_true_iff_eq. rewrite matches_star, ends_with_iff. split.
  - intros (stem & rest & -> & H). apply matches_literals in H. subst rest.
    now exists stem.
  - intros [stem ->]. exists stem, (string_of_list_ascii l).
    split; [reflexivity|]. now apply matches_literals.
Qed.

Lemma in_range_single (c c' : ascii) :
  fnmatch.in_range c (c', c') = Ascii.eqb c c'.
Proof.
  unfold fnmatch.in_range. cbn [fst snd].
  destruct (Ascii.eqb_spec c c') as [->|Hne].
  - now rewrite N.leb_refl.
  - destruct (N.leb_spec (N_of_ascii c') (N_of_ascii c));
      destruct (N.leb_spec (N_of_ascii c) (N_of_ascii c')); try reflexivity.
    exfalso. apply Hne.
    rewrite <- (ascii_N_embedding c), <- (ascii_N_embedding c').
    f_equal. lia.
Qed.

Lemma class_of_singles (c : ascii) (cs : list ascii) :
  existsb (fnmatch.in_range c) (map (fun c' => (c', c')) cs) = true
  <-> In c cs.
Proof.
  rewrite existsb_exists. split.
  - intros ([lo hi] & Hin & Hr). apply in_map_iff in Hin as (c' & [= <- <-] & Hin).
    rewrite in_range_single in Hr. apply Ascii.eqb_eq in Hr. now subst.
  - intros Hin. exists (c, c). split; [apply in_map_iff; now exists c|].
    rewrite in_range_single. apply Ascii.eqb_refl.
Qed.

Lemma matches_literals_class (l cs : list ascii) (rest : string) :
  fnmatch.matches
    (map fnmatch.Lit l ++ [fnmatch.Class false (map (fun c => (c, c)) cs)]) rest
  = true
  <-> exists c, In c cs /\ rest = string_of_list_ascii (l ++ [c]).
Proof.
  revert rest; induction l as [|a l IH]; intros rest.
  - cbn [map app fnmatch.matches]. destruct rest as [|x rest].
    + split; [discriminate|]. intros (c & _ & H). discriminate.
    + cbn [fnmatch.item_matches xorb]. rewrite andb_true_iff, class_of_singles.
      destruct rest as [|y rest].
      * split.
        -- intros [Hin _]. now exists x.
        -- intros (c & Hin & [= ->]). now split.
      * split; [intros [_ H]; discriminate|].
        intros (c & _ & H). discriminate.
  - cbn [map app fnmatch.matches]. destruct rest as [|x rest].
    + split; [discriminate|]. intros (c & _ & H). discriminate.
    + cbn [fnmatch.item_matches]. rewrite andb_true_iff, IH, Ascii.eqb_eq. split.
      * intros [-> (c & Hin & ->)]. now exists c.
      * intros (c & Hin & [= -> ->]). split; [reflexivity|]. now exists c.
Qed.

Lemma matches_star_literals_class (l cs : list ascii) (name : string) :
  fnmatch.matches
    (fnmatch.Star
     :: map fnmatch.Lit l ++ [fnmatch.Class false (map (fun c => (c, c)) cs)])
    name
  = existsb (fun c => ends_with name (string_of_list_ascii (l ++ [c]))) cs.
Proof.
  apply eq_true_iff_eq. rewrite matches_star, existsb_exists. split.
  - intros (stem & rest & -> & H).
    apply matches_literals_class in H as (c & Hin & ->).
    exists c. split; [assumption|]. apply ends_with_iff. now exists stem.
  - intros (c & Hin & H). apply ends_with_iff in H as [stem ->].
    exists stem, (string_of_list_ascii (l ++ [c])). split; [reflexivity|].
    apply matches_literals_class. now exists c.
Qed.

Ltac star_literals name pat lits :=
  change (fnmatch.fnmatch name pat)
    with (fnmatch.matches (fnmatch.Star :: map fnmatch.Lit lits) name);
  rewrite (matches_star_literals lits name).

Ltac star_literals_class name pat lits chars :=
  change (fnmatch.fnmatch name pat)
    with (fnmatch.matches
            (fnmatch.Star
             :: map fnmatch.Lit lits
                ++ [fnmatch.Class false (map (fun c => (c, c)) chars)]) name);
  rewrite (matches_star_literals_class lits chars name).

Lemma ncm_pattern_by_suffix (name : string) :
  fnmatch.fnmatch name "*.ncm" = ends_with name ".ncm".
Proof. star_literals name "*.ncm" ["."; "n"; "c"; "m"]%char. reflexivity. Qed.

Lemma qmc_patterns_by_suffix (name : string) :
  any_pattern_matches name
    ["*.qmc[023468]"; "*.qmcflac"; "*.qmcogg"; "*.tkm";
     "*.mflac"; "*.mflac[0]"; "*.mgg"; "*.mgg[01l]";
     "*.bkcmp3"; "*.bkcm4a"; "*.bkcflac"; "*.bkcwav"; "*.bkcape";
     "*.bkcogg"; "*.bkcwma"]
  = existsb (ends_with name) qmc_suffixes.
Proof.
  rewrite any_pattern_matches_existsb. cbn [existsb qmc_suffixes].
  star_literals_class name "*.qmc[023468]" ["."; "q"; "m"; "c"]%char
    ["0"; "2"; "3"; "4"; "6"; "8"]%char.
  star_literals name "*.qmcflac" ["."; "q"; "m"; "c"; "f"; "l"; "a"; "c"]%char.
  star_literals name "*.qmcogg" ["."; "q"; "m"; "c"; "o"; "g"; "g"]%char.
  star_literals name "*.tkm" ["."; "t"; "k"; "m"]%char.
  star_literals name "*.mflac" ["."; "m"; "f"; "l"; "a"; "c"]%char.
  star_literals_class name "*.mflac[0]" ["."; "m"; "f"; "l"; "a"; "c"]%char
    ["0"]%char.
  star_literals name "*.mgg" ["."; "m"; "g"; "g"]%char.
  star_literals_class name "*.mgg[01l]" ["."; "m"; "g"; "g"]%char
    ["0"; "1"; "l"]%char.
  star_literals name "*.bkcmp3" ["."; "b"; "k"; "c"; "m"; "p"; "3"]%char.
  star_literals name "*.bkcm4a" ["."; "b"; "k"; "c"; "m"; "4"; "a"]%char.
  star_literals name "*.bkcflac" ["."; "b"; "k"; "c"; "f"; "l"; "a"; "c"]%char.
  star_literals name "*.bkcwav" ["."; "b"; "k"; "c"; "w"; "a"; "v"]%char.
  star_literals name "*.bkcape" ["."; "b"; "k"; "c"; "a"; "p"; "e"]%char.
  star_literals name "*.bkcogg" ["."; "b"; "k"; "c"; "o"; "g"; "g"]%char.
  star_literals name "*.bkcwma" ["."; "b"; "k"; "c"; "w"; "m"; "a"]%char.
  cbn [existsb app string_of_list_ascii].
  rewrite ?orb_false_r, <- ?orb_assoc. reflexivity.
Qed.

Lemma get_encryption_format_by_suffix (name : string) :
  get_encryption_format name =
  if ends_with name ".ncm" then Some "ncm"
  else if existsb (ends_with name) qmc_suffixes then Some "qmc"
       else None.
Proof.
  unfold get_encryption_format, SUPPORTED_FORMATS_PATTERNS.
  cbn [first_matching_scheme].
  rewrite qmc_patterns_by_suffix.
  cbn [any_pattern_matches]. rewrite ncm_pattern_by_suffix.
  now destruct (ends_with name ".ncm").
Qed.

Lemma string_app_eq_app (x a y b : string) :
  (x ++ a)%string = (y ++ b)%string ->
  (exists z, a = (z ++ b)%string) \/ (exists z, b = (z ++ a)%string).
Proof.
  revert y; induction x as [|c x IH]; intros y H.
  - left. now exists y.
  - destruct y as [|c' y].
    + right. exists (String c x). symmetry. exact H.
    + injection H as _ H. now apply (IH y).
Qed.

Lemma ends_with_comparable (name a b : string) :
  ends_with name a = true -> ends_with name b = true ->
  ends_with a b = true \/ ends_with b a = true.
Proof.
  rewrite !ends_with_iff. intros [x ->] [y H].
  apply string_app_eq_app in H as [[z ->]|[z ->]]; [left|right]; now exists z.
Qed.

Lemma ends_with_app (p name suffix : string) :
  ends_with name suffix = true -> ends_with (p ++ name) suffix = true.
Proof.
  rewrite !ends_with_iff. intros [stem ->]. exists (p ++ stem)%string.
  symmetry. apply string_app_assoc.
Qed.

Lemma ends_with_dot (name s : string) :
  ends_with name (String "." s) = true -> (0 <= Py.rfind name ".")%Z.
Proof.
  rewrite ends_with_iff. intros [stem ->]. rewrite rfind_app.
  assert (H : (0 <= Py.rfind (String "." s) ".")%Z).
  { cbn [Py.rfind]. destruct (Z.leb_spec 0 (Py.rfind s ".")); [lia|].
    cbn. lia. }
  destruct (Z.leb_spec 0 (Py.rfind (String "." s) ".")); lia.
Qed.

Lemma ncm_qmc_disjoint (name : string) :
  ends_with name ".ncm" = true ->
  existsb (ends_with name) qmc_suffixes = false.
Proof.
  intros Hncm. destruct (existsb _ _) eqn:E; [|reflexivity].
  apply existsb_exists in E as (suffix & Hin & Hs).
  destruct (ends_with_comparable _ _ _ Hncm Hs) as [H|H]; simpl in Hin;
    repeat (destruct Hin as [<-|Hin]; [vm_compute in H; discriminate|]);
    contradiction.
Qed.

(** X11.  The classification by the endings of the name: a name is ["ncm"]
    exactly when it ends with [.ncm], ["qmc"] exactly when it ends with one
    of the endings of the "qmc" patterns, and has no scheme exactly when it
    ends with none of these. *)
Theorem get_encryption_format_by_endings (name : string) :
  (get_encryption_format name = Some "ncm"
   <-> exists stem, name = (stem ++ ".ncm")%string)
  /\ (get_encryption_format name = Some "qmc"
      <-> exists stem suffix,
            In suffix qmc_suffixes /\ name = (stem ++ suffix)%string)
  /\ (get_encryption_format name = None
      <-> ends_with name ".ncm" = false
          /\ forall suffix, In suffix qmc_suffixes ->
                            ends_with name suffix = false).
Proof.
  rewrite get_encryption_format_by_suffix.
  split; [|split].
  - rewrite <- ends_with_iff. destruct (ends_with name ".ncm").
    + split; reflexivity.
    + split; [|discriminate]. destruct (existsb _ _); discriminate.
  - split.
    + destruct (ends_with name ".ncm"); [discriminate|].
      destruct (existsb _ _) eqn:E; [|discriminate]. intros _.
      apply existsb_exists in E as (suffix & Hin & Hs).
      apply ends_with_iff in Hs as [stem ->]. now exists stem, suffix.
    + intros (stem & suffix & Hin & ->).
      assert (E : existsb (ends_with (stem ++ suffix)) qmc_suffixes = true).
      { apply existsb_exists. exists suffix. split; [assumption|].
        apply ends_with_iff. now exists stem. }
      destruct (ends_with (stem ++ suffix) ".ncm") eqn:N.
      * apply ncm_qmc_disjoint in N. congruence.
      * now rewrite E.
  - destruct (ends_with name ".ncm").
    + split; [discriminate|]. intros [H _]. discriminate.
    + destruct (existsb _ _) eqn:E.
      * split; [discriminate|]. intros [_ H].
        apply existsb_exists in E as (suffix & Hin & Hs).
        rewrite (H suffix Hin) in Hs. discriminate.
      * split; [|reflexivity]. intros _. split; [reflexivity|].
        intros suffix Hin. destruct (ends_with name suffix) eqn:Hs;
          [|reflexivity].
        assert (existsb (ends_with name) qmc_suffixes = true)
          by (apply existsb_exists; now exists suffix).
        congruence.
Qed.

(** X12.  A name without a dot has no scheme. *)
Theorem get_encryption_format_needs_a_dot (name : string) :
  (Py.rfind name "." < 0)%Z -> get_encryption_format name = None.
Proof.
  intros Hno. rewrite get_encryption_format_by_suffix.
  destruct (ends_with name ".ncm") eqn:N.
  { apply ends_with_dot in N. lia. }
  destruct (existsb _ _) eqn:E; [|reflexivity].
  apply existsb_exists in E as (suffix & Hin & Hs). simpl in Hin.
  repeat (destruct Hin as [<-|Hin]; [apply ends_with_dot in Hs; lia|]).
  contradiction.
Qed.

Lemma get_encryption_format_needs_a_dot_witness :
  get_encryption_format "qmcflac" = None.
Proof.
  apply (get_encryption_format_needs_a_dot "qmcflac"). reflexivity.
Defined.

(** X13.  The scheme of a name is decided by its ending alone: text put
    before a name that has a scheme, a directory for one, leaves the scheme
    as it is. *)
Theorem get_encryption_format_prefix (p name scheme : string) :
  get_encryption_format name = Some scheme ->
  get_encryption_format (p ++ name) = Some scheme.
Proof.
  rewrite !get_encryption_format_by_suffix.
  destruct (ends_with name ".ncm") eqn:N.
  - intros H. now rewrite (ends_with_app p _ _ N).
  - destruct (existsb (ends_with name) qmc_suffixes) eqn:E; [|discriminate].
    intros H.
    assert (E' : existsb (ends_with (p ++ name)) qmc_suffixes = true).
    { apply existsb_exists in E as (suffix & Hin & Hs).
      apply existsb_exists. exists suffix. split; [assumption|].
      now apply ends_with_app. }
    destruct (ends_with (p ++ name) ".ncm") eqn:N'.
    + apply ncm_qmc_disjoint in N'. congruence.
    + now rewrite E'.
Qed.

Lemma get_encryption_format_prefix_witness :
  get_encryption_format ("/music/albums/" ++ "01.mgg1") = Some "qmc".
Proof.
  apply (get_encryption_format_prefix "/music/albums/" "01.mgg1" "qmc").
  reflexivity.
Defined.

(** X14.  No name matches patterns of both schemes, so the order in which
    the schemes are tried does not matter: trying them in the reverse order
    gives the same answer. *)
Theorem get_encryption_format_order_free (name : string) :
  get_encryption_format name
  = first_matching_scheme (rev SUPPORTED_FORMATS_PATTERNS) name.
Proof.
  rewrite get_encryption_format_by_suffix.
  unfold SUPPORTED_FORMATS_PATTERNS. cbn [rev app first_matching_scheme].
  rewrite qmc_patterns_by_suffix.
  cbn [any_pattern_matches]. rewrite ncm_pattern_by_suffix.
  destruct (ends_with name ".ncm") eqn:N.
  - now rewrite (ncm_qmc_disjoint _ N).
  - reflexivity.
Qed.

(** ** More on the capability probes *)

Section MoreProbes.
Context {S : Type} (f : Stream.fileobj S).

Lemma bind_Ok_iff {A B : Type} (c : Stream.io S A) (k : A -> Stream.io S B)
  (st st' : S) (b : B) :
  (Stream.res (Stream.bind c k st) = Py.Ok b
   /\ Stream.final (Stream.bind c k st) = st')
  <-> exists a,
        Stream.res (c st) = Py.Ok a
        /\ Stream.res (k a (Stream.final (c st))) = Py.Ok b
        /\ Stream.final (k a (Stream.final (c st))) = st'.
Proof.
  unfold Stream.bind. destruct (Stream.res (c st)) as [a|e]; cbn.
  - split.
    + intros [H1 H2]. now exists a.
    + intros (a' & [= <-] & H1 & H2). now split.
  - split; [intros [H _]; discriminate|]. intros (a & H & _). discriminate.
Qed.

Lemma check_readable_passes (st st' : S) :
  (Stream.res (check_readable f st) = Py.Ok tt
   /\ Stream.final (check_readable f st) = st')
  <-> read_passes f st st'.
Proof.
  unfold check_readable, read_passes. unfold_io.
  destruct (Stream.read f) as [rd|]; cbn.
  - destruct (rd 0%Z st) as [[v|e] st1] eqn:E; cbn.
    + destruct v; cbn;
        try (split; [intros [H _]; discriminate
                    |intros (rd' & b' & [= <-] & H); congruence]).
      split.
      * intros [_ <-]. now exists rd, b.
      * intros (rd' & b' & [= <-] & H). rewrite E in H.
        injection H as _ <-. now split.
    + split.
      * destruct (Py.is_Exception e); cbn; intros [H _]; discriminate.
      * intros (rd' & b' & [= <-] & H). congruence.
  - split; [intros [H _]; discriminate|].
    intros (rd & b & H & _). discriminate.
Qed.

Lemma check_seekable_passes (st st' : S) :
  (Stream.res (check_seekable f st) = Py.Ok tt
   /\ Stream.final (check_seekable f st) = st')
  <-> seek_passes f st st'.
Proof.
  unfold check_seekable, seek_passes. unfold_io.
  destruct (Stream.seek f) as [sk|]; cbn.
  - destruct (sk 0%Z SEEK_END st) as [[v|e] st1] eqn:E; cbn.
    + split.
      * intros [_ <-]. now exists sk, v.
      * intros (sk' & v' & [= <-] & H). rewrite E in H.
        injection H as _ <-. now split.
    + split.
      * destruct (Py.is_Exception e); cbn; intros [H _]; discriminate.
      * intros (sk' & v' & [= <-] & H). congruence.
  - split; [intros [H _]; discriminate|].
    intros (sk & v & H & _). discriminate.
Qed.

Lemma check_writable_passes (st st' : S) :
  (Stream.res (check_writable f st) = Py.Ok tt
   /\ Stream.final (check_writable f st) = st')
  <-> write_passes f st st'.
Proof.
  unfold check_writable, write_passes. unfold_io.
  destruct (Stream.write f) as [wr|]; cbn.
  - destruct (wr [] st) as [[v|e] st1] eqn:E; cbn.
    + split.
      * intros [_ <-]. now exists wr, v.
      * intros (wr' & v' & [= <-] & H). rewrite E in H.
        injection H as _ <-. now split.
    + split.
      * destruct (Py.is_Exception e); cbn; intros [H _]; discriminate.
      * intros (wr' & v' & [= <-] & H). congruence.
  - split; [intros [H _]; discriminate|].
    intros (wr & v & H & _). discriminate.
Qed.

Lemma stage_passes (enabled : bool) (check : Stream.io S unit)
  (passes : S -> S -> Prop) (st st' : S) :
  (forall s s',
      (Stream.res (check s) = Py.Ok tt /\ Stream.final (check s) = s')
      <-> passes s s') ->
  (Stream.res ((if enabled then check else Stream.ret tt) st) = Py.Ok tt
   /\ Stream.final ((if enabled then check else Stream.ret tt) st) = st')
  <-> if_enabled enabled passes st st'.
Proof.
  intros H. destruct enabled; cbn; [apply H|].
  split; [now intros [_ <-]|now intros ->].
Qed.

(** X15.  The validator succeeds exactly when every probe that is on
    returns, each on the state the one before left, and the read returns
    [bytes]; the state it leaves is the state after the last probe. *)
Theorem raise_while_not_fileobj_succeeds_iff
  (readable seekable writable : bool) (st st' : S) :
  (Stream.res (raise_while_not_fileobj f readable seekable writable st)
   = Py.Ok tt
   /\ Stream.final (raise_while_not_fileobj f readable seekable writable st)
      = st')
  <-> exists st1 st2,
        if_enabled readable (read_passes f) st st1
        /\ if_enabled seekable (seek_passes f) st1 st2
        /\ if_enabled writable (write_passes f) st2 st'.
Proof.
  unfold raise_while_not_fileobj. rewrite bind_Ok_iff. split.
  - intros ([] & H1 & H23). apply bind_Ok_iff in H23 as ([] & H2 & H3 & H4).
    eexists _, _. split; [|split].
    + apply (stage_passes readable (check_readable f) _ st _
               check_readable_passes). split; [exact H1|reflexivity].
    + apply (stage_passes seekable (check_seekable f) _ _ _
               check_seekable_passes). split; [exact H2|reflexivity].
    + apply (stage_passes writable (check_writable f) _ _ _
               check_writable_passes). split; assumption.
  - intros (st1 & st2 & P1 & P2 & P3).
    apply (stage_passes readable (check_readable f) _ st _
             check_readable_passes) in P1 as [R1 F1].
    exists tt. split; [exact R1|]. apply bind_Ok_iff. rewrite F1.
    apply (stage_passes seekable (check_seekable f) _ _ _
             check_seekable_passes) in P2 as [R2 F2].
    exists tt. split; [exact R2|]. rewrite F2.
    now apply (stage_passes writable (check_writable f) _ _ _
                 check_writable_passes).
Qed.

(** X16.  A stream whose read returns something that is not [bytes] (a text
    stream returns [str]) is turned down as not opened in binary mode, with
    the read as the only call made: no seek and no write is attempted. *)
Theorem raise_while_not_fileobj_text_mode
  (seekable writable : bool) (st st' : S) rd (v : Stream.value) :
  Stream.read f = Some rd ->
  rd 0%Z st = (Py.Ok v, st') ->
  Stream.is_bytes v = false ->
  raise_while_not_fileobj f true seekable writable st
  = {| Stream.res :=
         Py.Raise
           (Py.ValueError
              ("file object " ++ Stream.repr f ++ " not opened in binary mode"));
       Stream.final := st';
       Stream.trace := [Stream.CallRead 0] |}.
Proof.
  intros Hrd Hcall Hv. unfold raise_while_not_fileobj.
  assert (E : check_readable f st
              = {| Stream.res :=
                     Py.Raise
                       (Py.ValueError
                          ("file object " ++ Stream.repr f
                           ++ " not opened in binary mode"));
                   Stream.final := st';
                   Stream.trace := [Stream.CallRead 0] |}).
  { unfold check_readable. unfold_io. rewrite Hrd, Hcall. cbn.
    rewrite Hv. reflexivity. }
  rewrite bind_Raise
    with (e := Py.ValueError
                 ("file object " ++ Stream.repr f ++ " not opened in binary mode"));
    rewrite E; reflexivity.
Qed.

Lemma check_readable_raises (st : S) (e : Py.exc) :
  Stream.res (check_readable f st) = Py.Raise e ->
  e = Py.StreamBaseException
  \/ exists msg, In msg (validator_messages f) /\ e = Py.ValueError msg.
Proof.
  unfold check_readable, validator_messages. unfold_io.
  destruct (Stream.read f) as [rd|]; cbn.
  - destruct (rd 0%Z st) as [[v|e'] st1]; cbn.
    + destruct (Stream.is_bytes v); cbn; [discriminate|].
      intros [= <-]. right. eexists. split; [|reflexivity]. simpl. tauto.
    + destruct e'; cbn; intros [= <-];
        try (right; eexists; split; [|reflexivity]; simpl; tauto).
      now left.
  - intros [= <-]. right. eexists. split; [|reflexivity]. simpl. tauto.
Qed.

Lemma check_seekable_raises_what (st : S) (e : Py.exc) :
  Stream.res (check_seekable f st) = Py.Raise e ->
  e = Py.StreamBaseException
  \/ exists msg, In msg (validator_messages f) /\ e = Py.ValueError msg.
Proof.
  unfold check_seekable, validator_messages. unfold_io.
  destruct (Stream.seek f) as [sk|]; cbn.
  - destruct (sk 0%Z SEEK_END st) as [[v|e'] st1]; cbn; [discriminate|].
    destruct e'; cbn; intros [= <-];
      try (right; eexists; split; [|reflexivity]; simpl; tauto).
    now left.
  - intros [= <-]. right. eexists. split; [|reflexivity]. simpl. tauto.
Qed.

Lemma check_writable_raises_what (st : S) (e : Py.exc) :
  Stream.res (check_writable f st) = Py.Raise e ->
  e = Py.StreamBaseException
  \/ exists msg, In msg (validator_messages f) /\ e = Py.ValueError msg.
Proof.
  unfold check_writable, validator_messages. unfold_io.
  destruct (Stream.write f) as [wr|]; cbn.
  - destruct (wr [] st) as [[v|e'] st1]; cbn; [discriminate|].
    destruct e'; cbn; intros [= <-];
      try (right; eexists; split; [|reflexivity]; simpl; tauto).
    now left.
  - intros [= <-]. right. eexists. split; [|reflexivity]. simpl. tauto.
Qed.

(** X17.  Whatever the stream does, an error that comes out of the
    validator is a [ValueError] with one of the validator's five messages,
    or an exception of the stream that is not below [Exception]; every
    other exception of the stream, a [ValueError] of its own included, is
    replaced. *)
Theorem raise_while_not_fileobj_errors
  (readable seekable writable : bool) (st : S) (e : Py.exc) :
  Stream.res (raise_while_not_fileobj f readable seekable writable st)
  = Py.Raise e ->
  e = Py.StreamBaseException
  \/ exists msg, In msg (validator_messages f) /\ e = Py.ValueError msg.
Proof.
  unfold raise_while_not_fileobj, Stream.bind.
  destruct readable; cbn.
  - destruct (Stream.res (check_readable f st)) as [[]|e1] eqn:E1; cbn;
      [|intros [= <-]; exact (check_readable_raises _ _ E1)].
    destruct seekable; cbn.
    + destruct (Stream.res (check_seekable f _)) as [[]|e2] eqn:E2; cbn;
        [|intros [= <-]; exact (check_seekable_raises_what _ _ E2)].
      destruct writable; cbn; [apply check_writable_raises_what|discriminate].
    + destruct writable; cbn; [apply check_writable_raises_what|discriminate].
  - destruct seekable; cbn.
    + destruct (Stream.res (check_seekable f _)) as [[]|e2] eqn:E2; cbn;
        [|intros [= <-]; exact (check_seekable_raises_what _ _ E2)].
      destruct writable; cbn; [apply check_writable_raises_what|discriminate].
    + destruct writable; cbn; [apply check_writable_raises_what|discriminate].
Qed.

(** X18.  An exception of the read that is not below [Exception] (a
    [KeyboardInterrupt]) is not turned into a [ValueError]: it comes out of
    the validator as it is, and nothing is called after the read. *)
Theorem raise_while_not_fileobj_lets_base_exceptions_through
  (seekable writable : bool) (st st' : S) rd (e : Py.exc) :
  Stream.read f = Some rd ->
  rd 0%Z st = (Py.Raise e, st') ->
  Py.is_Exception e = false ->
  raise_while_not_fileobj f true seekable writable st
  = {| Stream.res := Py.Raise e; Stream.final := st';
       Stream.trace := [Stream.CallRead 0] |}.
Proof.
  intros Hrd Hcall He. unfold raise_while_not_fileobj.
  assert (E : check_readable f st
              = {| Stream.res := Py.Raise e; Stream.final := st';
                   Stream.trace := [Stream.CallRead 0] |}).
  { unfold check_readable. unfold_io. rewrite Hrd, Hcall. cbn.
    rewrite He. reflexivity. }
  rewrite bind_Raise with (e := e); rewrite E; reflexivity.
Qed.

(** X19.  For a stream that passes without the write check, turning the
    write check on adds one call, the write of no bytes, on the state the
    other checks left: the validator succeeds when that write returns, and
    raises ["cannot write to file object ..."] when it raises an
    [Exception], ["... not a valid file object"] when there is no [write]. *)
Theorem raise_while_not_fileobj_write_check
  (readable seekable : bool) (st : S) :
  Stream.res (raise_while_not_fileobj f readable seekable false st) = Py.Ok tt ->
  Stream.trace (raise_while_not_fileobj f readable seekable true st)
  = enabled_probes readable seekable true
  /\ (Stream.write f = None ->
      Stream.res (raise_while_not_fileobj f readable seekable true st)
      = Py.Raise (Py.ValueError (Stream.repr f ++ " not a valid file object")))
  /\ (forall wr r st',
         Stream.write f = Some wr ->
         wr [] (Stream.final (raise_while_not_fileobj f readable seekable false st))
         = (r, st') ->
         Stream.res (raise_while_not_fileobj f readable seekable true st)
         = match r with
           | Py.Ok _ => Py.Ok tt
           | Py.Raise e =>
               if Py.is_Exception e then
                 Py.Raise
                   (Py.ValueError ("cannot write to file object " ++ Stream.repr f))
               else Py.Raise e
           end).
Proof.
  unfold raise_while_not_fileobj, enabled_probes.
  set (c1 := if readable then check_readable f else Stream.ret tt).
  set (c2 := if seekable then check_seekable f else Stream.ret tt).
  assert (T1 : Stream.trace (c1 st)
               = if readable then [Stream.CallRead 0] else []).
  { subst c1. destruct readable; [apply check_readable_trace|reflexivity]. }
  assert (T2 : forall s, Stream.trace (c2 s)
                         = if seekable then [Stream.CallSeek 0 SEEK_END] else []).
  { intros s. subst c2. destruct seekable;
      [apply check_seekable_trace|reflexivity]. }
  destruct (Stream.res (c1 st)) as [[]|e1] eqn:E1.
  2:{ rewrite (bind_Raise _ _ _ _ E1). discriminate. }
  rewrite !(bind_Ok _ _ _ _ E1). cbn [Stream.res Stream.final Stream.trace].
  destruct (Stream.res (c2 (Stream.final (c1 st)))) as [[]|e2] eqn:E2.
  2:{ rewrite (bind_Raise _ _ _ _ E2). discriminate. }
  intros _. rewrite !(bind_Ok _ _ _ _ E2).
  cbn [Stream.res Stream.final Stream.trace Stream.ret].
  rewrite T1, T2, check_writable_trace.
  split; [reflexivity|]. split.
  - intros Hw. unfold check_writable. unfold_io. rewrite Hw. reflexivity.
  - intros wr r st' Hw Hcall. unfold check_writable. unfold_io.
    rewrite Hw. cbn. rewrite Hcall. destruct r as [v|e]; cbn; [reflexivity|].
    destruct (Py.is_Exception e); reflexivity.
Qed.

End MoreProbes.

Lemma raise_while_not_fileobj_text_mode_witness :
  raise_while_not_fileobj text_stream true true false tt
  = {| Stream.res :=
         Py.Raise
           (Py.ValueError
              "file object <_io.TextIOWrapper name='lyrics.txt'> not opened in binary mode");
       Stream.final := tt;
       Stream.trace := [Stream.CallRead 0] |}.
Proof.
  apply (raise_while_not_fileobj_text_mode text_stream true false tt tt
           (fun _ st => (Py.Ok (Stream.VStr ""), st)) (Stream.VStr ""));
    reflexivity.
Defined.

Lemma raise_while_not_fileobj_errors_witness :
  Py.ValueError "cannot seek in file object <Pipe object>"
  = Py.StreamBaseException
  \/ exists msg,
       In msg (validator_messages pipe)
       /\ Py.ValueError "cannot seek in file object <Pipe object>"
          = Py.ValueError msg.
Proof.
  apply (raise_while_not_fileobj_errors pipe true true true tt). reflexivity.
Defined.

Lemma raise_while_not_fileobj_lets_base_exceptions_through_witness :
  raise_while_not_fileobj interrupted_stream true true false tt
  = {| Stream.res := Py.Raise Py.StreamBaseException; Stream.final := tt;
       Stream.trace := [Stream.CallRead 0] |}.
Proof.
  apply (raise_while_not_fileobj_lets_base_exceptions_through
           interrupted_stream true false tt tt
           (fun _ st => (Py.Raise Py.StreamBaseException, st))
           Py.StreamBaseException);
    reflexivity.
Defined.

Lemma raise_while_not_fileobj_write_check_witness :
  Stream.trace (raise_while_not_fileobj text_stream false true true tt)
  = enabled_probes false true true
  /\ Stream.res (raise_while_not_fileobj text_stream false true true tt)
     = Py.Raise
         (Py.ValueError
            "<_io.TextIOWrapper name='lyrics.txt'> not a valid file object").
Proof.
  destruct (raise_while_not_fileobj_write_check text_stream false true tt
              eq_refl) as (Htrace & Hmissing & _).
  split; [exact Htrace|]. apply Hmissing. reflexivity.
Defined.

(** ** More on XOR *)

Lemma int_of_byte_inj (x y : byte) :
  Py.int_of_byte x = Py.int_of_byte y -> x = y.
Proof.
  intros H. pose proof (byte_of_int_of_byte x) as Hx.
  rewrite H, byte_of_int_of_byte in Hx. now injection Hx.
Qed.

Lemma xor_bytestrings_Ok (a b : Py.bytes) :
  List.length a = List.length b ->
  exists r, xor_bytestrings a b = Py.Ok r /\ List.length r = List.length a.
Proof.
  intros H. destruct (xor_bytestrings_pointwise a b H) as (r & Hr & Hl & _).
  now exists r.
Qed.

(** X20.  XOR with the all-zero byte string of the same length changes
    nothing. *)
Theorem xor_bytestrings_zeros (a : Py.bytes) :
  xor_bytestrings a (repeat x00 (List.length a)) = Py.Ok a
  /\ xor_bytestrings (repeat x00 (List.length a)) a = Py.Ok a.
Proof.
  induction a as [|x a [IH1 IH2]]; [split; reflexivity|].
  cbn [List.length repeat]. split.
  - rewrite (xor_bytestrings_cons x x00 x), IH1; [reflexivity|].
    change (Py.int_of_byte x00) with 0%Z. rewrite Z.lxor_0_r.
    apply byte_of_int_of_byte.
  - rewrite (xor_bytestrings_cons x00 x x), IH2; [reflexivity|].
    change (Py.int_of_byte x00) with 0%Z. rewrite Z.lxor_0_l.
    apply byte_of_int_of_byte.
Qed.

(** X21.  XOR is associative on byte strings of one length: XOR-ing [a]
    with [b] and the result with [c] gives what XOR-ing [a] with the XOR of
    [b] and [c] gives. *)
Theorem xor_bytestrings_assoc (a b c : Py.bytes) :
  List.length a = List.length b -> List.length b = List.length c ->
  exists ab bc r,
    xor_bytestrings a b = Py.Ok ab
    /\ xor_bytestrings b c = Py.Ok bc
    /\ xor_bytestrings ab c = Py.Ok r
    /\ xor_bytestrings a bc = Py.Ok r.
Proof.
  revert b c; induction a as [|x a IH]; intros [|y b] [|z c] Hab Hbc;
    try discriminate.
  - exists [], [], []. repeat split.
  - injection Hab as Hab. injection Hbc as Hbc.
    destruct (IH b c Hab Hbc) as (ab & bc & r & H1 & H2 & H3 & H4).
    destruct (xor_byte_exists x y) as (xy & Hxy & Ixy).
    destruct (xor_byte_exists y z) as (yz & Hyz & Iyz).
    destruct (xor_byte_exists xy z) as (w & Hw & Iw).
    exists (xy :: ab), (yz :: bc), (w :: r).
    rewrite (xor_bytestrings_cons _ _ _ _ _ Hxy), H1.
    rewrite (xor_bytestrings_cons _ _ _ _ _ Hyz), H2.
    rewrite (xor_bytestrings_cons _ _ _ _ _ Hw), H3.
    rewrite (xor_bytestrings_cons x yz w), H4; [repeat split|].
    rewrite Iyz, <- Z.lxor_assoc, <- Ixy. exact Hw.
Qed.

Lemma xor_bytestrings_assoc_witness :
  exists ab bc r,
    xor_bytestrings [x0f; x33] [xf0; x55] = Py.Ok ab
    /\ xor_bytestrings [xf0; x55] [xaa; xff] = Py.Ok bc
    /\ xor_bytestrings ab [xaa; xff] = Py.Ok r
    /\ xor_bytestrings [x0f; x33] bc = Py.Ok r.
Proof.
  apply (xor_bytestrings_assoc [x0f; x33] [xf0; x55] [xaa; xff]);
    reflexivity.
Defined.

(** X22.  XOR with a fixed byte string loses nothing: two byte strings of
    its length that it takes to the same result are the same, and only a
    byte string itself is taken to all zeros. *)
Theorem xor_bytestrings_injective (a b c : Py.bytes) :
  List.length a = List.length b -> List.length a = List.length c ->
  (xor_bytestrings a b = xor_bytestrings a c -> b = c)
  /\ (xor_bytestrings a b = Py.Ok (repeat x00 (List.length a)) -> a = b).
Proof.
  intros Hab Hac. split.
  - revert b c Hab Hac; induction a as [|x a IH]; intros [|y b] [|z c] Hab Hac;
      try discriminate; [reflexivity|].
    injection Hab as Hab. injection Hac as Hac.
    destruct (xor_byte_exists x y) as (xy & Hxy & Ixy).
    destruct (xor_byte_exists x z) as (xz & Hxz & Ixz).
    rewrite (xor_bytestrings_cons _ _ _ _ _ Hxy).
    rewrite (xor_bytestrings_cons _ _ _ _ _ Hxz).
    destruct (xor_bytestrings_Ok a b Hab) as (r1 & H1 & _).
    destruct (xor_bytestrings_Ok a c Hac) as (r2 & H2 & _).
    rewrite H1, H2. intros [= Hb Hr]. f_equal.
    + apply int_of_byte_inj.
      assert (E : Z.lxor (Py.int_of_byte x) (Py.int_of_byte y)
                  = Z.lxor (Py.int_of_byte x) (Py.int_of_byte z))
        by congruence.
      apply (f_equal (Z.lxor (Py.int_of_byte x))) in E.
      now rewrite <- !Z.lxor_assoc, Z.lxor_nilpotent, !Z.lxor_0_l in E.
    + apply (IH b c Hab Hac). congruence.
  - clear c Hac. revert b Hab; induction a as [|x a IH]; intros [|y b] Hab;
      try discriminate; [reflexivity|].
    injection Hab as Hab.
    destruct (xor_byte_exists x y) as (xy & Hxy & Ixy).
    rewrite (xor_bytestrings_cons _ _ _ _ _ Hxy).
    destruct (xor_bytestrings_Ok a b Hab) as (r & Hr & _).
    rewrite Hr. cbn [List.length repeat]. intros [= Hz Hrest]. f_equal.
    + apply int_of_byte_inj, Z.lxor_eq. rewrite <- Ixy, Hz. reflexivity.
    + apply IH; [assumption|]. now rewrite Hr, Hrest.
Qed.

Lemma xor_bytestrings_injective_witness :
  [x01; x02] = [x01; x02].
Proof.
  apply (proj1 (xor_bytestrings_injective [xa5; x5a] [x01; x02] [x01; x02]
                  eq_refl eq_refl)).
  reflexivity.
Defined.

(** X23.  XOR works piece by piece: for heads of equal length, the XOR of
    two byte strings is the XOR of the heads followed by the XOR of the
    rest, and it fails exactly as the XOR of the rest fails. *)
Theorem xor_bytestrings_app (a1 a2 b1 b2 : Py.bytes) :
  List.length a1 = List.length b1 ->
  exists r1,
    xor_bytestrings a1 b1 = Py.Ok r1
    /\ xor_bytestrings (a1 ++ a2) (b1 ++ b2)
       = match xor_bytestrings a2 b2 with
         | Py.Ok r2 => Py.Ok (r1 ++ r2)
         | Py.Raise e => Py.Raise e
         end.
Proof.
  revert b1; induction a1 as [|x a1 IH]; intros [|y b1] H; try discriminate.
  - exists []. split; [reflexivity|]. cbn [app].
    now destruct (xor_bytestrings a2 b2).
  - injection H as H. destruct (IH b1 H) as (r1 & H1 & Happ).
    destruct (xor_byte_exists x y) as (xy & Hxy & _).
    exists (xy :: r1). cbn [app].
    rewrite !(xor_bytestrings_cons _ _ _ _ _ Hxy), H1, Happ.
    split; [reflexivity|]. now destruct (xor_bytestrings a2 b2).
Qed.

Lemma xor_bytestrings_app_witness :
  exists r1,
    xor_bytestrings [x01; x02] [x10; x20] = Py.Ok r1
    /\ xor_bytestrings ([x01; x02] ++ [x03]) ([x10; x20] ++ [x30])
       = match xor_bytestrings [x03] [x30] with
         | Py.Ok r2 => Py.Ok (r1 ++ r2)
         | Py.Raise e => Py.Raise e
         end.
Proof.
  apply (xor_bytestrings_app [x01; x02] [x03] [x10; x20] [x30]). reflexivity.
Defined.
